(** * Movable-holiday resolution of prophet's [hdays.py]

    A shallow embedding of [python/prophet/hdays.py].  Each country's
    [_populate(year)] is a straight-line sequence of statements
    [self[key] = value] and [warnings.warn(msg)]; it is modelled as the
    list of those effects, in program order (an [event] trace).  The
    holiday store of [HolidayBase] is a map from dates to names updated by
    [HolidayBase.__setitem__].

    The calendar collaborators ([dateutil.easter.easter],
    [lunarcalendar.Converter.Lunar2Solar], [convertdate.islamic]) are
    external to the repository and are parameters of the model; concrete
    transcriptions of [dateutil]'s and [convertdate]'s algorithms are given
    for evaluating the code at concrete years. *)

From Stdlib Require Import ZArith Lia List String Bool.
From stdpp Require Import base gmap strings.
Import ListNotations.
Open Scope string_scope.
Open Scope list_scope.
Open Scope Z_scope.

(* ------------------------------------------------------------------ *)
(** ** Python's [datetime.date] *)

(** A [date] is stored as its (year, month, day) triple, as CPython does. *)
Record date := mkdate { year : Z; month : Z; day : Z }.

#[global] Instance date_eq_dec : EqDecision date.
Proof. solve_decision. Defined.

#[global] Program Instance date_countable : Countable date :=
  inj_countable' (fun d => (year d, month d, day d))
                 (fun t => mkdate t.1.1 t.1.2 t.2) _.
Next Obligation. intros []; reflexivity. Qed.

Module PyDate.

(** [_DAYS_IN_MONTH] and [_DAYS_BEFORE_MONTH] of [datetime.py],
    indexed by the month number (index 0 holds -1). *)
Definition DAYS_IN_MONTH : list Z :=
  [-1; 31; 28; 31; 30; 31; 30; 31; 31; 30; 31; 30; 31].
Definition DAYS_BEFORE_MONTH : list Z :=
  [-1; 0; 31; 59; 90; 120; 151; 181; 212; 243; 273; 304; 334].

Definition idx (l : list Z) (i : Z) : Z := nth (Z.to_nat i) l (-1).

Definition is_leap (y : Z) : bool :=
  (y mod 4 =? 0) && (negb (y mod 100 =? 0) || (y mod 400 =? 0)).

Definition b2z (b : bool) : Z := if b then 1 else 0.

Definition days_before_year (y : Z) : Z :=
  let y' := y - 1 in y' * 365 + y' / 4 - y' / 100 + y' / 400.

Definition days_before_month (y m : Z) : Z :=
  idx DAYS_BEFORE_MONTH m + b2z ((2 <? m) && is_leap y).

(** [_ymd2ord] *)
Definition ymd2ord (y m d : Z) : Z :=
  days_before_year y + days_before_month y m + d.

Definition DI400Y : Z := 146097.
Definition DI100Y : Z := 36524.
Definition DI4Y : Z := 1461.

(** The last lines of [_ord2ymd]: month and day from the 0-based day [n]
    of the year, with the month first estimated as [(n + 50) >> 5]. *)
Definition month_and_day (leapyear : bool) (n : Z) : Z * Z :=
  let month := Z.shiftr (n + 50) 5 in
  let preceding := idx DAYS_BEFORE_MONTH month
                   + b2z ((2 <? month) && leapyear) in
  let '(month, preceding) :=
    if n <? preceding then
      let month := month - 1 in
      (month, preceding - (idx DAYS_IN_MONTH month
                           + b2z ((month =? 2) && leapyear)))
    else (month, preceding) in
  (month, n - preceding + 1).

(** [_ord2ymd] *)
Definition ord2ymd (n : Z) : Z * Z * Z :=
  let n := n - 1 in
  let n400 := n / DI400Y in let n := n mod DI400Y in
  let year := n400 * 400 + 1 in
  let n100 := n / DI100Y in let n := n mod DI100Y in
  let n4 := n / DI4Y in let n := n mod DI4Y in
  let n1 := n / 365 in let n := n mod 365 in
  let year := year + n100 * 100 + n4 * 4 + n1 in
  if (n1 =? 4) || (n100 =? 4) then (year - 1, 12, 31)
  else
    let leapyear := (n1 =? 3) && (negb (n4 =? 24) || (n100 =? 3)) in
    let '(month, day) := month_and_day leapyear n in
    (year, month, day).

End PyDate.

(** [date.toordinal()] *)
Definition toordinal (d : date) : Z := PyDate.ymd2ord (year d) (month d) (day d).

(** [date.fromordinal(n)] *)
Definition fromordinal (n : Z) : date :=
  let '(y, m, d) := PyDate.ord2ymd n in mkdate y m d.

(** [date.weekday()]: Monday is 0, Sunday is 6. *)
Definition weekday (d : date) : Z := (toordinal d + 6) mod 7.

(** [d + timedelta(days=n)], also [d + relativedelta(days=n)] and
    [d - relativedelta(days=-n)], which reduce to it. *)
Definition add_days (d : date) (n : Z) : date := fromordinal (toordinal d + n).

(* ------------------------------------------------------------------ *)
(** ** The ordinal round trip of [datetime]

    [toordinal (fromordinal n) = n] for every [n]: [_ord2ymd] splits
    [n - 1] into 400-, 100-, 4- and 1-year blocks; the year arithmetic is
    shifted to the first 400-year cycle, where the few block combinations
    and the 365 days of a year are checked by evaluation. *)
Module OrdinalRoundTrip.
Import PyDate.

Definition zrange (lo : Z) (cnt : nat) : list Z :=
  map (fun i => lo + Z.of_nat i) (seq 0 cnt).

Lemma in_zrange (lo : Z) (cnt : nat) (z : Z) :
  lo <= z < lo + Z.of_nat cnt -> In z (zrange lo cnt).
Proof.
  intros Hz. unfold zrange. apply in_map_iff.
  exists (Z.to_nat (z - lo)). split; [lia|].
  apply in_seq. lia.
Qed.

Lemma forallb_zrange (f : Z -> bool) (lo : Z) (cnt : nat) (z : Z) :
  forallb f (zrange lo cnt) = true -> lo <= z < lo + Z.of_nat cnt -> f z = true.
Proof.
  intros Hf Hz. rewrite forallb_forall in Hf. apply Hf, in_zrange, Hz.
Qed.

Lemma is_leap_shift (y q : Z) : is_leap (y + 400 * q) = is_leap y.
Proof.
  unfold is_leap.
  replace (y + 400 * q) with (y + (100 * q) * 4) by lia.
  rewrite Z_mod_plus_full.
  replace (y + 100 * q * 4) with (y + (4 * q) * 100) by lia.
  rewrite Z_mod_plus_full.
  replace (y + 4 * q * 100) with (y + q * 400) by lia.
  rewrite Z_mod_plus_full. reflexivity.
Qed.

Lemma days_before_year_shift (y q : Z) :
  days_before_year (y + 400 * q) = days_before_year y + DI400Y * q.
Proof.
  unfold days_before_year, DI400Y.
  replace (y + 400 * q - 1) with ((y - 1) + (100 * q) * 4) by lia.
  rewrite Z_div_plus_full by lia.
  replace ((y - 1) + 100 * q * 4) with ((y - 1) + (4 * q) * 100) by lia.
  rewrite Z_div_plus_full by lia.
  replace ((y - 1) + 4 * q * 100) with ((y - 1) + q * 400) by lia.
  rewrite Z_div_plus_full by lia. lia.
Qed.

Lemma ymd2ord_shift (y m d q : Z) :
  ymd2ord (y + 400 * q) m d = ymd2ord y m d + DI400Y * q.
Proof.
  unfold ymd2ord, days_before_month.
  rewrite days_before_year_shift, is_leap_shift. lia.
Qed.

(** Years of the first cycle: [days_before_year] and [is_leap] against the
    block counts of [_ord2ymd]. *)
Definition year_blocks_ok (b c e : Z) : bool :=
  let y := 100 * b + 4 * c + e + 1 in
  (days_before_year y =? DI100Y * b + DI4Y * c + 365 * e)
  && Bool.eqb (is_leap y) ((e =? 3) && (negb (c =? 24) || (b =? 3))).

Lemma year_blocks_check :
  forallb (fun b => forallb (fun c => forallb (fun e => year_blocks_ok b c e)
    (zrange 0 4)) (zrange 0 25)) (zrange 0 4) = true.
Proof. vm_compute. reflexivity. Qed.

Lemma year_blocks (b c e : Z) :
  0 <= b <= 3 -> 0 <= c <= 24 -> 0 <= e <= 3 -> year_blocks_ok b c e = true.
Proof.
  intros Hb Hc He.
  pose proof year_blocks_check as H.
  eapply (forallb_zrange _ 0 4 b) in H; [|simpl; lia].
  eapply (forallb_zrange _ 0 25 c) in H; [|simpl; lia].
  eapply (forallb_zrange _ 0 4 e) in H; [|simpl; lia].
  exact H.
Qed.

(** The last day of a 4-year block. *)
Definition dec31_ok (b c : Z) : bool :=
  ymd2ord (100 * b + 4 * c + 4) 12 31 =? DI100Y * b + DI4Y * c + DI4Y.

Lemma dec31_check :
  forallb (fun b => forallb (fun c => dec31_ok b c) (zrange 0 24)) (zrange 0 4)
  = true.
Proof. vm_compute. reflexivity. Qed.

Lemma dec31 (b c : Z) : 0 <= b <= 3 -> 0 <= c <= 23 -> dec31_ok b c = true.
Proof.
  intros Hb Hc. pose proof dec31_check as H.
  eapply (forallb_zrange _ 0 4 b) in H; [|simpl; lia].
  eapply (forallb_zrange _ 0 24 c) in H; [|simpl; lia].
  exact H.
Qed.

(** The days of one year. *)
Definition month_ok (leapyear : bool) (u : Z) : bool :=
  let '(m, d) := month_and_day leapyear u in
  idx DAYS_BEFORE_MONTH m + b2z ((2 <? m) && leapyear) + d =? u + 1.

Lemma month_check :
  forallb (fun lp => forallb (month_ok lp) (zrange 0 365)) [true; false] = true.
Proof. vm_compute. reflexivity. Qed.

Lemma month_days (lp : bool) (u : Z) : 0 <= u < 365 -> month_ok lp u = true.
Proof.
  intros Hu. pose proof month_check as H.
  apply andb_prop in H as [Ht H]. apply andb_prop in H as [Hf _].
  destruct lp; eapply forallb_zrange; eauto; simpl; lia.
Qed.

Lemma toordinal_fromordinal (n : Z) : toordinal (fromordinal n) = n.
Proof.
  unfold toordinal, fromordinal, ord2ymd.
  pose proof (Z.div_mod (n - 1) DI400Y ltac:(unfold DI400Y; lia)) as E1.
  pose proof (Z.mod_pos_bound (n - 1) DI400Y ltac:(unfold DI400Y; lia)) as B1.
  set (a := (n - 1) / DI400Y) in *. set (r := (n - 1) mod DI400Y) in *.
  pose proof (Z.div_mod r DI100Y ltac:(unfold DI100Y; lia)) as E2.
  pose proof (Z.mod_pos_bound r DI100Y ltac:(unfold DI100Y; lia)) as B2.
  set (b := r / DI100Y) in *. set (s := r mod DI100Y) in *.
  pose proof (Z.div_mod s DI4Y ltac:(unfold DI4Y; lia)) as E3.
  pose proof (Z.mod_pos_bound s DI4Y ltac:(unfold DI4Y; lia)) as B3.
  set (c := s / DI4Y) in *. set (t := s mod DI4Y) in *.
  pose proof (Z.div_mod t 365 ltac:(lia)) as E4.
  pose proof (Z.mod_pos_bound t 365 ltac:(lia)) as B4.
  set (e := t / 365) in *. set (u := t mod 365) in *.
  unfold DI400Y, DI100Y, DI4Y in *.
  assert (0 <= b <= 4) by nia. assert (0 <= c <= 24) by nia.
  assert (0 <= e <= 4) by nia.
  destruct ((e =? 4) || (b =? 4)) eqn:Hspecial.
  - cbn [year month day].
    apply orb_true_iff in Hspecial as [He|Hb]; apply Z.eqb_eq in He || apply Z.eqb_eq in Hb.
    + assert (b <= 3) by nia. assert (u = 0) by nia. assert (c <= 23) by nia.
      replace (a * 400 + 1 + b * 100 + c * 4 + e - 1)
        with ((100 * b + 4 * c + 4) + 400 * a) by lia.
      rewrite ymd2ord_shift. pose proof (dec31 b c ltac:(lia) ltac:(lia)) as D.
      unfold dec31_ok in D. apply Z.eqb_eq in D. rewrite D.
      unfold DI400Y, DI100Y, DI4Y. lia.
    + assert (s = 0) by nia. assert (c = 0) by nia. assert (e = 0) by nia.
      replace (a * 400 + 1 + b * 100 + c * 4 + e - 1) with (400 + 400 * a) by lia.
      rewrite ymd2ord_shift.
      replace (ymd2ord 400 12 31) with 146097 by reflexivity.
      unfold DI400Y. lia.
  - apply orb_false_iff in Hspecial as [He Hb].
    apply Z.eqb_neq in He. apply Z.eqb_neq in Hb.
    pose proof (year_blocks b c e ltac:(lia) ltac:(lia) ltac:(lia)) as Y.
    unfold year_blocks_ok in Y. apply andb_prop in Y as [Yd Yl].
    apply Z.eqb_eq in Yd. apply Bool.eqb_prop in Yl.
    set (lp := (e =? 3) && (negb (c =? 24) || (b =? 3))) in *.
    pose proof (month_days lp u ltac:(lia)) as M.
    unfold month_ok in M.
    destruct (month_and_day lp u) as [mo dd] eqn:Emd.
    apply Z.eqb_eq in M. cbn [year month day].
    unfold ymd2ord, days_before_month.
    replace (a * 400 + 1 + b * 100 + c * 4 + e)
      with ((100 * b + 4 * c + e + 1) + 400 * a) by lia.
    rewrite days_before_year_shift, is_leap_shift, Yd, Yl.
    unfold DI400Y, DI100Y, DI4Y. lia.
Qed.

End OrdinalRoundTrip.

(* ------------------------------------------------------------------ *)
(** ** External collaborators

    [hdays.py] imports them; they are parameters of every country. *)

(** [dateutil.easter.easter(year, method)]: the method constants. *)
Definition EASTER_JULIAN : Z := 1.
Definition EASTER_ORTHODOX : Z := 2.
Definition EASTER_WESTERN : Z := 3.

Definition easter_fn : Type := Z -> Z -> date.

(** [Converter.Lunar2Solar(Lunar(y, m, d)).to_date()] *)
Definition lunar2solar_fn : Type := Z -> Z -> Z -> date.

(** [convertdate.islamic.from_gregorian] and [to_gregorian]. *)
Record islamic_conv := IslamicConv {
  from_gregorian : Z -> Z -> Z -> Z * Z * Z;
  to_gregorian : Z -> Z -> Z -> Z * Z * Z
}.

(** A transcription of [dateutil.easter.easter], used to evaluate the code
    at concrete years. *)
Module Dateutil.

Definition easter (y method : Z) : date :=
  let g := y mod 19 in
  let '(i, j, e) :=
    if method <? 3 then
      let i := (19 * g + 15) mod 30 in
      let j := (y + y / 4 + i) mod 7 in
      let e := if method =? 2
               then if 1600 <? y then 10 + y / 100 - 16 - (y / 100 - 16) / 4
                    else 10
               else 0 in
      (i, j, e)
    else
      let c := y / 100 in
      let h := (c - c / 4 - (8 * c + 13) / 25 + 19 * g + 15) mod 30 in
      let i := h - (h / 28) * (1 - (h / 28) * (29 / (h + 1)) * ((21 - g) / 11)) in
      let j := (y + y / 4 + i + 2 - c + c / 4) mod 7 in
      (i, j, 0) in
  let p := i - j + e in
  let d := 1 + (p + 27 + (p + 6) / 40) mod 31 in
  let m := 3 + (p + 26) / 30 in
  mkdate y m d.

End Dateutil.

(** A transcription of [convertdate.gregorian] and [convertdate.islamic].
    Julian days there are half-integers [j + 0.5]; the integer [j] is kept. *)
Module Convertdate.

Definition isleap (y : Z) : bool :=
  (y mod 4 =? 0) && (negb (y mod 100 =? 0) || (y mod 400 =? 0)).

(** [ceil(a / b)] for [b > 0] *)
Definition ceil_div (a b : Z) : Z := - ((- a) / b).

Definition gregorian_to_jd (y m d : Z) : Z :=
  let leap_adj := if m <=? 2 then 0 else if isleap y then -1 else -2 in
  1721424 + 365 * (y - 1) + (y - 1) / 4 - (y - 1) / 100 + (y - 1) / 400
  + ((367 * m - 362) / 12 + leap_adj + d).

Definition gregorian_from_jd (jd : Z) : Z * Z * Z :=
  let depoch := jd - 1721425 in
  let quadricent := depoch / 146097 in let dqc := depoch mod 146097 in
  let cent := dqc / 36524 in let dcent := dqc mod 36524 in
  let quad := dcent / 1461 in let dquad := dcent mod 1461 in
  let yindex := dquad / 365 in
  let y := quadricent * 400 + cent * 100 + quad * 4 + yindex in
  let y := if (cent =? 4) || (yindex =? 4) then y else y + 1 in
  let yearday := jd - gregorian_to_jd y 1 1 in
  let leap := isleap y in
  let leap_adj := if yearday <? 58 + (if leap then 1 else 0) then 0
                  else if leap then 1 else 2 in
  let m := ((yearday + leap_adj) * 12 + 373) / 367 in
  let d := jd - gregorian_to_jd y m 1 + 1 in
  (y, m, d).

Definition EPOCH : Z := 1948439.

Definition islamic_to_jd (y m d : Z) : Z :=
  d + ceil_div (59 * (m - 1)) 2 + (y - 1) * 354 + (3 + 11 * y) / 30 + EPOCH - 1.

Definition islamic_from_jd (jd : Z) : Z * Z * Z :=
  let y := (30 * (jd - EPOCH) + 10646) / 10631 in
  let m := Z.min 12 (ceil_div (2 * (jd - (29 + islamic_to_jd y 1 1))) 59 + 1) in
  let d := jd - islamic_to_jd y m 1 + 1 in
  (y, m, d).

Definition islamic : islamic_conv := {|
  from_gregorian y m d := islamic_from_jd (gregorian_to_jd y m d);
  to_gregorian y m d := gregorian_from_jd (islamic_to_jd y m d)
|}.

End Convertdate.

(* ------------------------------------------------------------------ *)
(** ** The effects of [_populate]

    [self[key] = name] ([HolidayBase.__setitem__]) and
    [warnings.warn(msg, Warning)], in program order. *)
Inductive event :=
| Warn (msg : string)
| SetItem (key : date) (name : string).

(** [range(-1, 2, 1)] *)
Definition OFFSETS : list Z := [-1; 0; 1].

(** [holidays.constants.WEEKEND = (SAT, SUN)] *)
Definition WEEKEND : list Z := [5; 6].

Definition in_weekend (wd : Z) : bool := existsb (Z.eqb wd) WEEKEND.

(** [self[date(year, m, d)] = name] *)
Definition fixed (yr m d : Z) (name : string) : list event :=
  [SetItem (mkdate yr m d) name].

(** The [if year == Y0: ... elif year == Y1: ... else: pass] chains of the
    hard-coded holidays, as a lookup in the table of their branches. *)
Definition year_table {A} (yr : Z) (tbl : list (Z * A)) : option A :=
  match find (fun p => fst p =? yr) tbl with
  | Some (_, a) => Some a
  | None => None
  end.

Definition hardcoded (yr : Z) (tbl : list (Z * (Z * Z))) (name : string)
  : list event :=
  match year_table yr tbl with
  | Some (m, d) => [SetItem (mkdate yr m d) name]
  | None => []
  end.

(** The foreign-calendar loops.

<<
for offset in range(-1, 2, 1):
    ds = Converter.Lunar2Solar(Lunar(year + offset, lm, ld)).to_date()
    if ds.year == year:
        self[ds] = name
>> *)
Definition lunar_loop (lunar2solar : lunar2solar_fn) (yr lm ld : Z)
  (name : string) : list event :=
  flat_map (fun offset =>
    let ds := lunar2solar (yr + offset) lm ld in
    if year ds =? yr then [SetItem ds name] else []) OFFSETS.

(**
<<
for offset in range(-1, 2, 1):
    islam_year = from_gregorian(year + offset, gm, gd)[0]
    y1, m1, d1 = to_gregorian(islam_year + dy, hm, hd1)
    ...                                     # one line per day of [days]
    if y1 == year:
        self[date(y1, m1, d1)] = name
    ...
>>
    [dy] is the [+ 1] of [to_gregorian(islam_year + 1, ...)]; the
    conversions are pure, so computing each just before its test gives the
    same effects. *)
Definition hijri_loop (H : islamic_conv) (yr gm gd dy hm : Z) (days : list Z)
  (name : string) : list event :=
  flat_map (fun offset =>
    let islam_year := fst (fst (from_gregorian H (yr + offset) gm gd)) in
    flat_map (fun hd =>
      let '(y, m, d) := to_gregorian H (islam_year + dy) hm hd in
      if y =? yr then [SetItem (mkdate y m d) name] else []) days) OFFSETS.

(** Indonesia's Eid al-Fitr (lines 118-125): the first test stores
    [date(y1, m2, d2)]. *)
Definition indonesia_eid_loop (H : islamic_conv) (yr : Z) (name : string)
  : list event :=
  flat_map (fun offset =>
    let islam_year := fst (fst (from_gregorian H (yr + offset) 6 15)) in
    let '(y1, m1, d1) := to_gregorian H islam_year 10 1 in
    let '(y2, m2, d2) := to_gregorian H islam_year 10 2 in
    (if y1 =? yr then [SetItem (mkdate y1 m2 d2) name] else [])
    ++ (if y2 =? yr then [SetItem (mkdate y2 m2 d2) name] else [])) OFFSETS.

(** The Philippines' Eid al-Fitr (lines 720-725):
    [ds = date(y, m, d) - timedelta(days=1)]. *)
Definition philippines_eid_loop (H : islamic_conv) (yr : Z) (name : string)
  : list event :=
  flat_map (fun offset =>
    let islam_year := fst (fst (from_gregorian H (yr + offset) 6 15)) in
    let '(y, m, d) := to_gregorian H islam_year 10 1 in
    let ds := add_days (mkdate y m d) (-1) in
    if year ds =? yr then [SetItem ds name] else []) OFFSETS.

(** The Western-Easter loops:
    [ds = easter(year + offset) + rd(days=o)] (or [- rd(days=-o)]). *)
Definition easter_loop (easter : easter_fn) (yr o : Z) (name : string)
  : list event :=
  flat_map (fun offset =>
    let ds := add_days (easter (yr + offset) EASTER_WESTERN) o in
    if year ds =? yr then [SetItem ds name] else []) OFFSETS.

(** India's Easter Sunday: [ds = easter(year + offset)]. *)
Definition easter_sunday_loop (easter : easter_fn) (yr : Z) (name : string)
  : list event :=
  flat_map (fun offset =>
    let ds := easter (yr + offset) EASTER_WESTERN in
    if year ds =? yr then [SetItem ds name] else []) OFFSETS.

(* ------------------------------------------------------------------ *)
(** ** The countries' [_populate(year)] *)

(** Indonesia, lines 37-156. *)
Definition NYEPI : list (Z * (Z * Z)) :=
  [(2009, (3, 26)); (2010, (3, 16)); (2011, (3, 5)); (2012, (3, 23));
   (2013, (3, 12)); (2014, (3, 31)); (2015, (3, 21)); (2016, (3, 9));
   (2017, (3, 28)); (2018, (3, 17)); (2019, (3, 7))].

Definition indonesia (E : easter_fn) (L : lunar2solar_fn) (H : islamic_conv)
  (observed : bool) (yr : Z) : list event :=
  (if negb observed && in_weekend (weekday (mkdate yr 1 1)) then []
   else fixed yr 1 1 "New Year's Day")
  ++ lunar_loop L yr 1 1 "Chinese New Year"
  ++ [Warn "We only support Nyepi holiday from 2009 to 2019"]
  ++ hardcoded yr NYEPI "Day of Silence/ Nyepi"
  ++ hijri_loop H yr 3 17 0 7 [27] "Ascension of the Prophet"
  ++ fixed yr 5 1 "Labor Day"
  ++ easter_loop E yr 39 "Ascension of Jesus"
  ++ lunar_loop L yr 4 15 "Buddha's Birthday"
  ++ (if 2017 <=? yr then fixed yr 6 1 "Pancasila Day" else [])
  ++ indonesia_eid_loop H yr "Eid al-Fitr"
  ++ fixed yr 8 17 "Independence Day"
  ++ hijri_loop H yr 8 22 0 12 [10] "Feast of the Sacrifice"
  ++ hijri_loop H yr 9 11 1 1 [1] "Islamic New Year"
  ++ hijri_loop H yr 11 20 1 3 [12] "Birth of the Prophet"
  ++ fixed yr 12 25 "Christmas".

(** India, lines 179-403. *)
Definition DIWALI_HOLI : list (Z * ((Z * Z) * (Z * Z))) :=
  [(2010, ((12, 5), (2, 28))); (2011, ((10, 26), (3, 19)));
   (2012, ((11, 13), (3, 8))); (2013, ((11, 3), (3, 26)));
   (2014, ((10, 23), (3, 17))); (2015, ((11, 11), (3, 6)));
   (2016, ((10, 30), (3, 24))); (2017, ((10, 19), (3, 13)));
   (2018, ((11, 7), (3, 2))); (2019, ((10, 27), (3, 21)));
   (2020, ((11, 14), (3, 9))); (2021, ((11, 4), (3, 28)));
   (2022, ((10, 24), (3, 18))); (2023, ((10, 12), (3, 7)));
   (2024, ((11, 1), (3, 25))); (2025, ((10, 21), (3, 14)));
   (2026, ((11, 8), (3, 3))); (2027, ((10, 29), (3, 22)));
   (2028, ((10, 17), (3, 11))); (2029, ((11, 5), (2, 28)));
   (2030, ((10, 26), (3, 19)))].

Definition diwali_holi (yr : Z) : list event :=
  match year_table yr DIWALI_HOLI with
  | Some ((m1, d1), (m2, d2)) =>
      [SetItem (mkdate yr m1 d1) "Diwali"; SetItem (mkdate yr m2 d2) "Holi"]
  | None => []
  end.

Definition india (E : easter_fn) (H : islamic_conv) (yr : Z) : list event :=
  fixed yr 1 26 "Republic Day"
  ++ fixed yr 8 15 "Independence Day"
  ++ fixed yr 10 2 "Gandhi Jayanti"
  ++ [Warn "We only support Diwali and Holi holidays from 2010 to 2030"]
  ++ diwali_holi yr
  ++ hijri_loop H yr 10 1 0 1 [10] "Day of Ashura"
  ++ hijri_loop H yr 11 20 0 3 [12] "Mawlid"
  ++ hijri_loop H yr 6 15 0 10 [1; 2] "Eid al-Fitr"
  ++ hijri_loop H yr 8 22 0 12 [10] "Feast of the Sacrifice"
  ++ fixed yr 1 1 "New Year's Day"
  ++ easter_loop E yr (-7) "Palm Sunday"
  ++ easter_loop E yr (-3) "Maundy Thursday"
  ++ easter_loop E yr (-2) "Good Friday"
  ++ easter_sunday_loop E yr "Easter Sunday"
  ++ easter_loop E yr 49 "Feast of Pentecost"
  ++ fixed yr 9 5 "Fest of St. Theresa of Calcutta"
  ++ fixed yr 9 8 "Feast of the Blessed Virgin"
  ++ fixed yr 11 1 "All Saints Day"
  ++ fixed yr 11 2 "All Souls Day"
  ++ fixed yr 12 25 "Christmas Day"
  ++ fixed yr 12 26 "Boxing Day"
  ++ fixed yr 12 30 "Feast of Holy Family".

(** Kyrgyzstan, lines 423-482. *)
Definition kyrgyzstan (yr : Z) : list event :=
  fixed yr 1 1 "New Year's Day"
  ++ fixed yr 1 7 "Orthodox Christmas Day"
  ++ fixed yr 2 23 "Fatherland Defender's Day"
  ++ fixed yr 3 8 "International Women's Day"
  ++ fixed yr 3 21 "Nooruz Mairamy"
  ++ fixed yr 4 7 "Day of the People's April Revolution"
  ++ fixed yr 5 1 "Spring and Labour Day"
  ++ fixed yr 5 1 "Spring and Labour Day"
  ++ fixed yr 5 5 "Constitution Day"
  ++ fixed yr 5 9 "Victory Day"
  ++ fixed yr 6 1 "Russia Day"
  ++ fixed yr 8 31 "Independence Day"
  ++ fixed yr 11 7 "Day 1 of History and Commemoration of Ancestors"
  ++ fixed yr 11 8 "Day 2 of History and Commemoration of Ancestors"
  ++ fixed yr 12 31 "New Year's Eve".

(** Thailand, lines 501-667. *)
Definition MAGHA_PUJA : list (Z * (Z * Z)) :=
  [(2016, (2, 22)); (2017, (2, 11)); (2018, (3, 1)); (2019, (2, 19))].

Definition ASALHA_PUJA : list (Z * (Z * Z)) :=
  [(2006, (7, 11)); (2007, (6, 30)); (2008, (7, 18)); (2009, (7, 7));
   (2010, (7, 25)); (2011, (7, 15)); (2012, (8, 2)); (2013, (7, 30));
   (2014, (7, 13)); (2015, (7, 30)); (2016, (7, 15)); (2017, (7, 9));
   (2018, (7, 29)); (2019, (7, 16)); (2020, (7, 5)); (2021, (7, 24));
   (2022, (7, 13)); (2023, (7, 3)); (2024, (7, 21)); (2025, (7, 10))].

Definition VASSA : list (Z * (Z * Z)) :=
  [(2006, (7, 12)); (2007, (7, 31)); (2008, (7, 19)); (2009, (7, 8));
   (2010, (7, 27)); (2011, (7, 16)); (2012, (8, 3)); (2013, (7, 23));
   (2014, (7, 13)); (2015, (8, 1)); (2016, (7, 20)); (2017, (7, 9));
   (2018, (7, 28)); (2019, (7, 17)); (2020, (7, 6))].

(** Chakri Memorial Day, lines 525-532. *)
Definition chakri (yr : Z) : list event :=
  let april_6 := weekday (mkdate yr 4 6) in
  if april_6 =? 5 then fixed yr 4 (6 + 2) "Chakri Memorial Day"
  else if april_6 =? 6 then fixed yr 4 (6 + 1) "Chakri Memorial Day"
  else fixed yr 4 6 "Chakri Memorial Day".

Definition thailand (L : lunar2solar_fn) (yr : Z) : list event :=
  fixed yr 1 1 "New Year's Day"
  ++ hardcoded yr MAGHA_PUJA "Magha Pujab/Makha Bucha"
  ++ chakri yr
  ++ fixed yr 4 14 "Songkran Festival"
  ++ lunar_loop L yr 4 15 "Buddha's Birthday"
  ++ (if yr <? 2017 then fixed yr 5 5 "Coronation Day" else [])
  ++ fixed yr 7 28 "King Maha Vajiralongkorn's Birthday"
  ++ [Warn "We only support Asalha Puja holiday from 2006 to 2025"]
  ++ hardcoded yr ASALHA_PUJA "Asalha Puja"
  ++ [Warn "We only support Vassa holiday from 2006 to 2020"]
  ++ hardcoded yr VASSA "Beginning of Vassa"
  ++ fixed yr 8 12 "The Queen Sirikit's Birthday"
  ++ fixed yr 10 13 "Anniversary for the Death of King Bhumibol Adulyadej"
  ++ fixed yr 10 23 "King Chulalongkorn Day"
  ++ fixed yr 12 5 "King Bhumibol Adulyadej's Birthday Anniversary"
  ++ fixed yr 12 10 "Constitution Day"
  ++ fixed yr 12 31 "New Year's Eve".

(** Philippines, lines 687-749. *)
Definition philippines (E : easter_fn) (H : islamic_conv) (yr : Z)
  : list event :=
  fixed yr 1 1 "New Year's Day"
  ++ easter_loop E yr (-3) "Maundy Thursday"
  ++ easter_loop E yr (-2) "Good Friday"
  ++ fixed yr 4 9 "Day of Valor"
  ++ fixed yr 5 1 "Labor Day"
  ++ fixed yr 6 12 "Independence Day"
  ++ philippines_eid_loop H yr "Eid al-Fitr"
  ++ hijri_loop H yr 8 22 0 12 [10] "Feast of the Sacrifice"
  ++ fixed yr 8 27 "National Heroes' Day"
  ++ fixed yr 11 30 "Bonifacio Day"
  ++ fixed yr 12 25 "Christmas Day"
  ++ fixed yr 12 30 "Rizal Day".

(** Pakistan, lines 778-868. *)
Definition pakistan (H : islamic_conv) (yr : Z) : list event :=
  fixed yr 2 5 "Kashmir Solidarity Day"
  ++ fixed yr 3 23 "Pakistan Day"
  ++ fixed yr 5 1 "Labor Day"
  ++ fixed yr 8 14 "Independence Day"
  ++ fixed yr 11 9 "Iqbal Day"
  ++ fixed yr 12 25 "Christmas Day"
  ++ hijri_loop H yr 8 22 0 12 [10; 11; 12] "Feast of the Sacrifice"
  ++ hijri_loop H yr 6 15 0 10 [1; 2; 3] "Eid al-Fitr"
  ++ hijri_loop H yr 11 20 0 3 [12] "Mawlid"
  ++ hijri_loop H yr 10 1 0 1 [10; 11] "Day of Ashura"
  ++ hijri_loop H yr 4 13 0 7 [27] "Shab e Mairaj"
  ++ fixed yr 9 6 "Defence Day"
  ++ fixed yr 9 11 "Death Anniversary of Quaid-e-Azam".

(** Russia, lines 890-929. *)
Definition russia (yr : Z) : list event :=
  fixed yr 1 1 "New Year's Day"
  ++ fixed yr 1 7 "Orthodox Christmas Day"
  ++ fixed yr 12 25 "Christmas Day"
  ++ fixed yr 2 23 "Defender of the Fatherland Day"
  ++ fixed yr 3 8 "International Women's Day"
  ++ fixed yr 8 22 "National Flag Day"
  ++ fixed yr 5 1 "Spring and Labour Day"
  ++ fixed yr 5 9 "Victory Day"
  ++ fixed yr 6 12 "Russia Day"
  ++ fixed yr 11 4 "Unity Day".

(** Belarus, lines 953-988. *)
Definition belarus (E : easter_fn) (yr : Z) : list event :=
  fixed yr 1 1 "New Year's Day"
  ++ fixed yr 1 7 "Orthodox Christmas Day"
  ++ fixed yr 3 8 "International Women's Day"
  ++ [SetItem (add_days (E yr EASTER_ORTHODOX) 9) "Commemoration Day"]
  ++ fixed yr 5 1 "Spring and Labour Day"
  ++ fixed yr 5 9 "Victory Day"
  ++ fixed yr 7 3 "Independence Day"
  ++ fixed yr 11 7 "October Revolution Day"
  ++ fixed yr 12 25 "Christmas Day".

(** Georgia, lines 1007-1074. *)
Definition georgia (E : easter_fn) (yr : Z) : list event :=
  fixed yr 1 1 "New Year's Day"
  ++ fixed yr 1 2 "Second day of the New Year"
  ++ fixed yr 1 7 "Orthodox Christmas"
  ++ fixed yr 1 19 "Baptism Day of our Lord Jesus Christ"
  ++ fixed yr 3 3 "Mother's Day"
  ++ fixed yr 3 8 "International Women's Day"
  ++ [SetItem (add_days (E yr EASTER_ORTHODOX) (-2)) "Good Friday"]
  ++ [SetItem (add_days (E yr EASTER_ORTHODOX) (-1)) "Great Saturday"]
  ++ [SetItem (E yr EASTER_ORTHODOX) "Easter Sunday"]
  ++ [SetItem (add_days (E yr EASTER_ORTHODOX) 1) "Easter Monday"]
  ++ fixed yr 4 9 "National Unity Day"
  ++ fixed yr 5 9 "Victory Day"
  ++ fixed yr 5 12 "Saint Andrew the First-Called Day"
  ++ fixed yr 5 26 "Independence Day"
  ++ fixed yr 8 28 "Saint Mary's Day"
  ++ fixed yr 10 14 "Day of Svetitskhoveli Cathedral"
  ++ fixed yr 12 23 "Saint George's Day".

(** The country classes with a [_populate] of their own (the alias
    classes [ID], [IN], ... add nothing; [TU] is [holidays.Turkey]). *)
Inductive country := ID | IN | KG | TH | PH | PK | RU | BY | GE.

(** [_populate(year)] of a country; [observed] is [HolidayBase.observed],
    read by Indonesia only. *)
Definition populate_trace (E : easter_fn) (L : lunar2solar_fn)
  (H : islamic_conv) (c : country) (observed : bool) (yr : Z) : list event :=
  match c with
  | ID => indonesia E L H observed yr
  | IN => india E H yr
  | KG => kyrgyzstan yr
  | TH => thailand L yr
  | PH => philippines E H yr
  | PK => pakistan H yr
  | RU => russia yr
  | BY => belarus E yr
  | GE => georgia E yr
  end.

(* ------------------------------------------------------------------ *)
(** ** The holiday store

    [HolidayBase.__setitem__] of the [holidays] package, which every
    [self[key] = value] above runs:
<<
if key in self:
    if self.get(key).find(value) < 0 and value.find(self.get(key)) < 0:
        value = "%s, %s" % (value, self.get(key))
    else:
        value = self.get(key)
return dict.__setitem__(self, self.__keytransform__(key), value)
>> *)

(** [s.find(sub) >= 0] *)
Fixpoint contains (s sub : string) : bool :=
  String.prefix sub s
  || match s with
     | EmptyString => false
     | String _ s' => contains s' sub
     end.

Abbreviation store := (gmap date string) (only parsing).

Definition setitem (m : store) (k : date) (v : string) : store :=
  match m !! k with
  | Some c =>
      if negb (contains c v) && negb (contains v c)
      then <[k := String.append v (String.append ", " c)]> m
      else <[k := c]> m
  | None => <[k := v]> m
  end.

Definition run_event (m : store) (e : event) : store :=
  match e with
  | SetItem k v => setitem m k v
  | Warn _ => m
  end.

Definition run_trace (m : store) (tr : list event) : store :=
  fold_left run_event tr m.

(** [self._populate(year)] on an instance holding the store [m]. *)
Definition populate (E : easter_fn) (L : lunar2solar_fn) (H : islamic_conv)
  (c : country) (observed : bool) (yr : Z) (m : store) : store :=
  run_trace m (populate_trace E L H c observed yr).

(** The warnings a trace issues, in order. *)
Definition warnings (tr : list event) : list string :=
  flat_map (fun e => match e with Warn msg => [msg] | SetItem _ _ => [] end) tr.

(** The assignments of one holiday name. *)
Definition named (n : string) (tr : list event) : list event :=
  List.filter (fun e => match e with
                   | SetItem _ v => String.eqb v n
                   | Warn _ => false
                   end) tr.

(** All events but the assignments of one holiday name. *)
Definition unnamed (n : string) (tr : list event) : list event :=
  List.filter (fun e => match e with
                   | SetItem _ v => negb (String.eqb v n)
                   | Warn _ => true
                   end) tr.

(* ------------------------------------------------------------------ *)
(** ** What each loop can store *)

Section Loops.
Context (E : easter_fn) (L : lunar2solar_fn) (H : islamic_conv).

Lemma in_lunar_loop (yr lm ld : Z) (n : string) (e : event) :
  In e (lunar_loop L yr lm ld n) ->
  exists k, In k OFFSETS /\ year (L (yr + k) lm ld) = yr
            /\ e = SetItem (L (yr + k) lm ld) n.
Proof.
  unfold lunar_loop. rewrite in_flat_map. intros (k & Hk & He).
  destruct (Z.eqb_spec (year (L (yr + k) lm ld)) yr); [|destruct He].
  destruct He as [<-|[]]. eauto.
Qed.

Lemma in_hijri_loop (yr gm gd dy hm : Z) (days : list Z) (n : string)
  (e : event) :
  In e (hijri_loop H yr gm gd dy hm days n) ->
  exists k hd y m d,
    In k OFFSETS /\ In hd days
    /\ to_gregorian H (fst (fst (from_gregorian H (yr + k) gm gd)) + dy) hm hd
       = (y, m, d)
    /\ y = yr /\ e = SetItem (mkdate y m d) n.
Proof.
  unfold hijri_loop. rewrite in_flat_map. intros (k & Hk & He).
  rewrite in_flat_map in He. destruct He as (hd & Hhd & He).
  destruct (to_gregorian H _ hm hd) as [[y m] d] eqn:Ec.
  destruct (Z.eqb_spec y yr); [|destruct He].
  destruct He as [<-|[]]. exists k, hd, y, m, d. auto.
Qed.

Lemma in_indonesia_eid_loop (yr : Z) (n : string) (e : event) :
  In e (indonesia_eid_loop H yr n) ->
  exists k y1 m1 d1 y2 m2 d2,
    In k OFFSETS
    /\ to_gregorian H (fst (fst (from_gregorian H (yr + k) 6 15))) 10 1 = (y1, m1, d1)
    /\ to_gregorian H (fst (fst (from_gregorian H (yr + k) 6 15))) 10 2 = (y2, m2, d2)
    /\ ((y1 = yr /\ e = SetItem (mkdate y1 m2 d2) n)
        \/ (y2 = yr /\ e = SetItem (mkdate y2 m2 d2) n)).
Proof.
  unfold indonesia_eid_loop. rewrite in_flat_map. intros (k & Hk & He).
  destruct (to_gregorian H _ 10 1) as [[y1 m1] d1] eqn:E1.
  destruct (to_gregorian H _ 10 2) as [[y2 m2] d2] eqn:E2.
  exists k, y1, m1, d1, y2, m2, d2. do 3 (split; [auto|]).
  apply in_app_iff in He as [He|He].
  - destruct (Z.eqb_spec y1 yr); [|destruct He]. destruct He as [<-|[]]. auto.
  - destruct (Z.eqb_spec y2 yr); [|destruct He]. destruct He as [<-|[]]. auto.
Qed.

Lemma in_philippines_eid_loop (yr : Z) (n : string) (e : event) :
  In e (philippines_eid_loop H yr n) ->
  exists k y m d,
    In k OFFSETS
    /\ to_gregorian H (fst (fst (from_gregorian H (yr + k) 6 15))) 10 1 = (y, m, d)
    /\ year (add_days (mkdate y m d) (-1)) = yr
    /\ e = SetItem (add_days (mkdate y m d) (-1)) n.
Proof.
  unfold philippines_eid_loop. rewrite in_flat_map. intros (k & Hk & He).
  destruct (to_gregorian H _ 10 1) as [[y m] d] eqn:E1.
  destruct (Z.eqb_spec (year (add_days (mkdate y m d) (-1))) yr); [|destruct He].
  destruct He as [<-|[]]. exists k, y, m, d. auto.
Qed.

Lemma in_easter_loop (yr o : Z) (n : string) (e : event) :
  In e (easter_loop E yr o n) ->
  exists k, In k OFFSETS
    /\ year (add_days (E (yr + k) EASTER_WESTERN) o) = yr
    /\ e = SetItem (add_days (E (yr + k) EASTER_WESTERN) o) n.
Proof.
  unfold easter_loop. rewrite in_flat_map. intros (k & Hk & He).
  destruct (Z.eqb_spec (year (add_days (E (yr + k) EASTER_WESTERN) o)) yr);
    [|destruct He].
  destruct He as [<-|[]]. eauto.
Qed.

Lemma in_easter_sunday_loop (yr : Z) (n : string) (e : event) :
  In e (easter_sunday_loop E yr n) ->
  exists k, In k OFFSETS /\ year (E (yr + k) EASTER_WESTERN) = yr
            /\ e = SetItem (E (yr + k) EASTER_WESTERN) n.
Proof.
  unfold easter_sunday_loop. rewrite in_flat_map. intros (k & Hk & He).
  destruct (Z.eqb_spec (year (E (yr + k) EASTER_WESTERN)) yr); [|destruct He].
  destruct He as [<-|[]]. eauto.
Qed.

Lemma in_hardcoded (yr : Z) (tbl : list (Z * (Z * Z))) (n : string) (e : event) :
  In e (hardcoded yr tbl n) ->
  exists m d, year_table yr tbl = Some (m, d) /\ e = SetItem (mkdate yr m d) n.
Proof.
  unfold hardcoded. destruct (year_table yr tbl) as [[m d]|]; [|intros []].
  intros [<-|[]]. eauto.
Qed.

End Loops.

(* ------------------------------------------------------------------ *)
(** ** [str.find] on names *)

Module Find.

Lemma prefix_iff (t s : string) :
  String.prefix t s = true <-> exists q, s = String.append t q.
Proof.
  revert t. induction s as [|b s IH]; intros [|a t]; simpl.
  - split; eauto.
  - split; [discriminate|]. intros [q Hq]. discriminate.
  - split; eauto.
  - destruct (Ascii.ascii_dec a b) as [<-|Hne].
    + rewrite IH. split; intros [q Hq]; exists q; [subst; reflexivity|].
      injection Hq. auto.
    + split; [discriminate|]. intros [q Hq]. injection Hq. intros. congruence.
Qed.

Lemma contains_iff (s t : string) :
  contains s t = true <-> exists p q, s = String.append p (String.append t q).
Proof.
  induction s as [|a s IH]; cbn [contains]; rewrite orb_true_iff, prefix_iff.
  - split.
    + intros [[q Hq]|Hf]; [exists EmptyString, q; exact Hq|discriminate].
    + intros (p & q & Hpq). left. exists q.
      destruct p; [exact Hpq|discriminate].
  - rewrite IH. split.
    + intros [[q Hq]|(p & q & Hpq)].
      * exists EmptyString, q. exact Hq.
      * exists (String a p), q. subst s. reflexivity.
    + intros (p & q & Hpq). destruct p as [|b p].
      * left. exists q. exact Hpq.
      * right. exists p, q. injection Hpq. auto.
Qed.

Lemma append_assoc (a b c : string) :
  String.append a (String.append b c) = String.append (String.append a b) c.
Proof. induction a as [|x a IH]; [reflexivity|]. exact (f_equal (String x) IH). Qed.

Lemma append_empty (a : string) : String.append a EmptyString = a.
Proof. induction a as [|x a IH]; [reflexivity|]. exact (f_equal (String x) IH). Qed.

Lemma contains_refl (s : string) : contains s s = true.
Proof.
  apply contains_iff. exists EmptyString, EmptyString.
  simpl. rewrite append_empty. reflexivity.
Qed.

Lemma contains_trans (a b c : string) :
  contains a b = true -> contains b c = true -> contains a c = true.
Proof.
  rewrite !contains_iff. intros (p1 & q1 & ->) (p2 & q2 & ->).
  exists (String.append p1 p2), (String.append q2 q1).
  rewrite !append_assoc. reflexivity.
Qed.

Lemma contains_joined_left (v c : string) :
  contains (String.append v (String.append ", " c)) v = true.
Proof.
  apply contains_iff. exists EmptyString, (String.append ", " c). reflexivity.
Qed.

Lemma contains_joined_right (v c x : string) :
  contains c x = true -> contains (String.append v (String.append ", " c)) x = true.
Proof.
  intros Hc. eapply contains_trans; [|exact Hc].
  apply contains_iff. exists (String.append v ", "), EmptyString.
  rewrite append_empty, <- append_assoc. reflexivity.
Qed.

End Find.

(* ------------------------------------------------------------------ *)
(** ** Running a trace twice

    When no name the trace [tr0] stores at a date contains another name it
    stores at the same date, every name stored at a date stays a substring
    of the value at that date, so a second run of the trace finds every
    name already present and changes nothing. *)

Section Rerun.
Variable tr0 : list event.
Hypothesis no_nesting_at : forall k a b,
  In (SetItem k a) tr0 -> In (SetItem k b) tr0 -> contains a b = true -> a = b.

Definition named_in (e : event) : Prop :=
  match e with SetItem k v => In (SetItem k v) tr0 | Warn _ => True end.

(** the value at [k], if any, holds a name [tr0] stores at [k] *)
Definition holds_name (m : store) (k : date) : Prop :=
  forall c, m !! k = Some c -> exists n, In (SetItem k n) tr0 /\ contains c n = true.

(** [e] would leave [m] unchanged *)
Definition absorbs (m : store) (e : event) : Prop :=
  match e with
  | SetItem k v => exists c, m !! k = Some c /\ contains c v = true
  | Warn _ => True
  end.

Lemma setitem_lookup (m : store) (k k' : date) (v : string) :
  setitem m k v !! k' = m !! k' \/
  (k' = k /\ (m !! k = None /\ setitem m k v !! k = Some v
              \/ exists c, m !! k = Some c
                 /\ setitem m k v !! k = Some (String.append v (String.append ", " c)))).
Proof.
  unfold setitem. destruct (decide (k = k')) as [<-|Hne].
  - destruct (m !! k) as [c|] eqn:Ek.
    + destruct (negb _ && negb _).
      * right. split; [reflexivity|]. right. exists c.
        rewrite lookup_insert_eq. auto.
      * left. rewrite lookup_insert_eq. reflexivity.
    + right. split; [reflexivity|]. left. rewrite lookup_insert_eq. auto.
  - left. destruct (m !! k); [destruct (negb _ && negb _)|];
      apply lookup_insert_ne; exact Hne.
Qed.

Lemma absorbs_setitem (m : store) (e : event) (k : date) (v : string) :
  absorbs m e -> absorbs (setitem m k v) e.
Proof.
  destruct e as [|k' v']; [auto|]. unfold absorbs. intros (c & Hc & Hcv).
  destruct (setitem_lookup m k k' v) as [->|(-> & [(Hn & _)|(c' & Hc' & ->)])].
  - eauto.
  - congruence.
  - rewrite Hc in Hc'. injection Hc' as <-.
    eexists; split; [reflexivity|]. apply Find.contains_joined_right, Hcv.
Qed.

Lemma absorbs_run (tr : list event) (m : store) (e : event) :
  absorbs m e -> absorbs (run_trace m tr) e.
Proof.
  revert m. induction tr as [|e' tr IH]; intros m Hm; simpl; [exact Hm|].
  apply IH. destruct e'; simpl; [exact Hm|]. apply absorbs_setitem, Hm.
Qed.

Lemma holds_name_setitem (m : store) (k k' : date) (v : string) :
  In (SetItem k v) tr0 -> holds_name m k' -> holds_name (setitem m k v) k'.
Proof.
  intros Hv Hk c Hc.
  destruct (setitem_lookup m k k' v) as [E|(-> & [(_ & E)|(c' & _ & E)])];
    rewrite E in Hc.
  - apply Hk, Hc.
  - injection Hc as <-. exists v. split; [exact Hv|]. apply Find.contains_refl.
  - injection Hc as <-. exists v. split; [exact Hv|].
    apply Find.contains_joined_left.
Qed.

Lemma setitem_absorbs (m : store) (k : date) (v : string) :
  In (SetItem k v) tr0 -> holds_name m k -> absorbs (setitem m k v) (SetItem k v).
Proof.
  intros Hv Hk. unfold absorbs, setitem.
  destruct (m !! k) as [c|] eqn:Ek.
  - destruct (contains c v) eqn:Ecv; destruct (contains v c) eqn:Evc;
      cbn [negb andb]; rewrite lookup_insert_eq; eexists; split; try reflexivity.
    + exact Ecv.
    + exact Ecv.
    + (* [v] contains [c], which holds a name [n]: then [n = v] *)
      destruct (Hk c Ek) as (n & Hn & Hcn).
      pose proof (no_nesting_at k v n Hv Hn (Find.contains_trans _ _ _ Evc Hcn)) as <-.
      congruence.
    + apply Find.contains_joined_left.
  - rewrite lookup_insert_eq. eexists; split; [reflexivity|].
    apply Find.contains_refl.
Qed.

Lemma run_absorbs (tr : list event) (m : store) :
  Forall named_in tr ->
  (forall k v, In (SetItem k v) tr -> holds_name m k) ->
  Forall (absorbs (run_trace m tr)) tr.
Proof.
  revert m. induction tr as [|e tr IH]; intros m Hn Hh; [constructor|].
  inversion Hn as [|? ? He Htr]; subst. simpl. constructor.
  - apply absorbs_run. destruct e as [|k v]; simpl; [exact I|].
    apply setitem_absorbs; [exact He|]. apply (Hh k v). left; reflexivity.
  - apply IH; [exact Htr|]. intros k v Hin.
    destruct e as [|k' v']; simpl.
    + apply (Hh k v). right; exact Hin.
    + apply holds_name_setitem; [exact He|]. apply (Hh k v). right; exact Hin.
Qed.

Lemma run_absorbed (tr : list event) (m : store) :
  Forall (absorbs m) tr -> run_trace m tr = m.
Proof.
  induction tr as [|e tr IH]; intros Ha; [reflexivity|].
  inversion Ha as [|? ? He Htr]; subst. simpl.
  assert (run_event m e = m) as ->; [|apply IH, Htr].
  destruct e as [|k v]; [reflexivity|]. simpl in *.
  destruct He as (c & Hc & Hcv). unfold setitem. rewrite Hc, Hcv.
  apply insert_id, Hc.
Qed.

Lemma named_in_all : Forall named_in tr0.
Proof. apply List.Forall_forall. intros [|k v] Hin; [exact I|exact Hin]. Qed.

Lemma run_trace_twice (m : store) :
  (forall k v, In (SetItem k v) tr0 -> m !! k = None) ->
  run_trace (run_trace m tr0) tr0 = run_trace m tr0.
Proof.
  intros Hm. apply run_absorbed, run_absorbs; [apply named_in_all|].
  intros k v Hin c Hc. rewrite (Hm k v Hin) in Hc. discriminate.
Qed.

Lemma run_records (m : store) (k : date) (v : string) :
  (forall k v, In (SetItem k v) tr0 -> m !! k = None) ->
  In (SetItem k v) tr0 ->
  exists c, run_trace m tr0 !! k = Some c /\ contains c v = true.
Proof.
  intros Hm Hin.
  assert (Forall (absorbs (run_trace m tr0)) tr0) as Ha.
  { apply run_absorbs; [apply named_in_all|]. intros k' v' Hin' c Hc.
    rewrite (Hm k' v' Hin') in Hc. discriminate. }
  rewrite List.Forall_forall in Ha. exact (Ha _ Hin).
Qed.

End Rerun.

(** The pairs of distinct names of [N] of which the first contains the
    second. *)
Definition nested_pairs (N : list string) : list (string * string) :=
  flat_map (fun a => flat_map (fun b =>
    if contains a b && negb (String.eqb a b) then [(a, b)] else []) N) N.

Lemma nested_pairs_spec (N : list string) (a b : string) :
  In a N -> In b N -> contains a b = true -> a <> b -> In (a, b) (nested_pairs N).
Proof.
  intros Ha Hb Hab Hne. unfold nested_pairs. apply in_flat_map.
  exists a. split; [exact Ha|]. apply in_flat_map. exists b. split; [exact Hb|].
  rewrite Hab. apply String.eqb_neq in Hne. rewrite Hne. left. reflexivity.
Qed.

(* ------------------------------------------------------------------ *)
(** ** The blocks of a trace *)

Lemma in_fixed (yr m d : Z) (n : string) (e : event) :
  In e (fixed yr m d n) -> e = SetItem (mkdate yr m d) n.
Proof. intros [<-|[]]. reflexivity. Qed.

Lemma in_diwali_holi (yr : Z) (e : event) :
  In e (diwali_holi yr) ->
  exists m1 d1 m2 d2,
    year_table yr DIWALI_HOLI = Some ((m1, d1), (m2, d2))
    /\ (e = SetItem (mkdate yr m1 d1) "Diwali"
        \/ e = SetItem (mkdate yr m2 d2) "Holi").
Proof.
  unfold diwali_holi. destruct (year_table yr DIWALI_HOLI) as [[[m1 d1] [m2 d2]]|];
    [|intros []].
  intros [<-|[<-|[]]]; exists m1, d1, m2, d2; auto.
Qed.

Lemma in_chakri (yr : Z) (e : event) :
  In e (chakri yr) ->
  e = SetItem (mkdate yr 4 (if weekday (mkdate yr 4 6) =? 5 then 8
                            else if weekday (mkdate yr 4 6) =? 6 then 7
                            else 6)) "Chakri Memorial Day".
Proof.
  unfold chakri. destruct (weekday (mkdate yr 4 6) =? 5);
    [|destruct (weekday (mkdate yr 4 6) =? 6)]; apply in_fixed.
Qed.

(** [H : In e tr], [tr] a concatenation of blocks: one goal per block,
    with what the block's lemma says of [e]. *)
Ltac block_in H :=
  lazymatch type of H with
  | In _ (_ ++ _) => apply in_app_iff in H; destruct H as [H|H]; block_in H
  | In _ (if ?b then _ else _) =>
      let Eb := fresh "Eb" in destruct b eqn:Eb; block_in H
  | In _ [] => destruct H
  | In _ [_] => destruct H as [H|[]]; symmetry in H
  | In _ (fixed _ _ _ _) => apply in_fixed in H
  | In _ (lunar_loop _ _ _ _ _) =>
      apply in_lunar_loop in H; destruct H as (?k & ?Hk & ?Hy & H)
  | In _ (hijri_loop _ _ _ _ _ _ _ _) =>
      apply in_hijri_loop in H;
      destruct H as (?k & ?hd & ?y & ?mo & ?dd & ?Hk & ?Hhd & ?Hc & ?Hy & H)
  | In _ (indonesia_eid_loop _ _ _) =>
      apply in_indonesia_eid_loop in H;
      destruct H as (?k & ?y1 & ?m1 & ?d1 & ?y2 & ?m2 & ?d2 & ?Hk & ?Hc1 & ?Hc2
                     & [[?Hy H]|[?Hy H]])
  | In _ (philippines_eid_loop _ _ _) =>
      apply in_philippines_eid_loop in H;
      destruct H as (?k & ?y & ?mo & ?dd & ?Hk & ?Hc & ?Hy & H)
  | In _ (easter_loop _ _ _ _) =>
      apply in_easter_loop in H; destruct H as (?k & ?Hk & ?Hy & H)
  | In _ (easter_sunday_loop _ _ _) =>
      apply in_easter_sunday_loop in H; destruct H as (?k & ?Hk & ?Hy & H)
  | In _ (hardcoded _ _ _) =>
      apply in_hardcoded in H; destruct H as (?mo & ?dd & ?Ht & H)
  | In _ (diwali_holi _) =>
      apply in_diwali_holi in H;
      destruct H as (?m1 & ?d1 & ?m2 & ?d2 & ?Ht & [H|H])
  | In _ (chakri _) => apply in_chakri in H
  end.

(** The same, on the trace of a country. *)
Ltac trace_in H :=
  unfold populate_trace in H; cbv beta iota in H;
  unfold indonesia, india, kyrgyzstan, thailand, philippines, pakistan,
    russia, belarus, georgia in H;
  block_in H.

(** Unfold the trace of a concrete country into its blocks. *)
Ltac unfold_trace :=
  unfold populate_trace; cbv beta iota;
  unfold indonesia, india, kyrgyzstan, thailand, philippines, pakistan,
    russia, belarus, georgia.

(** Find a concrete element of a concrete list. *)
Ltac in_list := repeat (first [left; reflexivity | right]).

(* ------------------------------------------------------------------ *)
(** ** The assignments of one name, and the warnings *)

Lemma named_app (n : string) (a b : list event) :
  named n (a ++ b) = named n a ++ named n b.
Proof. unfold named. apply List.filter_app. Qed.

Lemma unnamed_app (n : string) (a b : list event) :
  unnamed n (a ++ b) = unnamed n a ++ unnamed n b.
Proof. unfold unnamed. apply List.filter_app. Qed.

Lemma warnings_app (a b : list event) :
  warnings (a ++ b) = warnings a ++ warnings b.
Proof. unfold warnings. apply flat_map_app. Qed.

Lemma named_other (n : string) (l : list event) :
  (forall e, In e l -> match e with SetItem _ v => v <> n | Warn _ => True end) ->
  named n l = [].
Proof.
  unfold named. induction l as [|e l IH]; intros Hl; [reflexivity|].
  cbn [List.filter].
  rewrite IH by (intros e' He'; apply Hl; right; exact He').
  specialize (Hl e (or_introl eq_refl)). destruct e as [|k v]; [reflexivity|].
  destruct (String.eqb_spec v n); [contradiction|reflexivity].
Qed.

Lemma named_same (n : string) (l : list event) :
  (forall e, In e l -> exists d, e = SetItem d n) -> named n l = l.
Proof.
  unfold named. induction l as [|e l IH]; intros Hl; [reflexivity|].
  cbn [List.filter].
  rewrite IH by (intros e' He'; apply Hl; right; exact He').
  destruct (Hl e (or_introl eq_refl)) as [d ->]. rewrite String.eqb_refl. reflexivity.
Qed.

Lemma warnings_none (l : list event) :
  (forall e, In e l -> match e with SetItem _ _ => True | Warn _ => False end) ->
  warnings l = [].
Proof.
  induction l as [|e l IH]; intros Hl; [reflexivity|].
  specialize (Hl e (or_introl eq_refl)) as He.
  destruct e as [|k v]; [destruct He|]. simpl. apply IH.
  intros e' He'. apply Hl. right. exact He'.
Qed.

Ltac side_names :=
  let e := fresh "e" in let He := fresh "He" in
  intros e He; block_in He; subst e; simpl;
  first [exact I | discriminate | eexists; reflexivity].

(** Rewrite every [named n blk] of the goal by what the block holds. *)
Ltac named_blocks :=
  repeat rewrite named_app;
  repeat match goal with
  | |- context [named ?n ?l] =>
      lazymatch l with _ ++ _ => fail | _ => idtac end;
      first [ rewrite (named_other n l) by side_names
            | rewrite (named_same n l) by side_names ]
  end.

(** Rewrite every [warnings blk] of the goal that holds no warning. *)
Ltac warning_blocks :=
  repeat rewrite warnings_app;
  repeat match goal with
  | |- context [warnings ?l] =>
      lazymatch l with _ ++ _ => fail | [Warn _] => fail | _ => idtac end;
      rewrite (warnings_none l) by side_names
  end.

Lemma in_weekend_spec (wd : Z) : in_weekend wd = true <-> wd = 5 \/ wd = 6.
Proof.
  unfold in_weekend, WEEKEND. simpl. rewrite orb_false_r, orb_true_iff, !Z.eqb_eq.
  reflexivity.
Qed.

Lemma year_table_None {A} (yr : Z) (tbl : list (Z * A)) :
  year_table yr tbl = None <-> ~ In yr (map fst tbl).
Proof.
  unfold year_table. induction tbl as [|[y a] tbl IH]; simpl; [tauto|].
  destruct (Z.eqb_spec y yr); simpl.
  - split; [discriminate|]. intros Hn. exfalso. apply Hn. left. assumption.
  - rewrite IH. intuition.
Qed.

Lemma in_zrange_iff (lo : Z) (cnt : nat) (z : Z) :
  In z (OrdinalRoundTrip.zrange lo cnt) <-> lo <= z < lo + Z.of_nat cnt.
Proof.
  split; [|apply OrdinalRoundTrip.in_zrange].
  unfold OrdinalRoundTrip.zrange. rewrite in_map_iff. intros (i & <- & Hi).
  apply in_seq in Hi. lia.
Qed.

Lemma year_table_range {A} (yr lo : Z) (cnt : nat) (tbl : list (Z * A)) :
  map fst tbl = OrdinalRoundTrip.zrange lo cnt ->
  (year_table yr tbl = None <-> yr < lo \/ lo + Z.of_nat cnt <= yr).
Proof.
  intros Ht. rewrite year_table_None, Ht, in_zrange_iff. lia.
Qed.

Lemma toordinal_add_days (d : date) (n : Z) :
  toordinal (add_days d n) = toordinal d + n.
Proof. apply OrdinalRoundTrip.toordinal_fromordinal. Qed.

(** The names each country stores. *)
Definition country_names (c : country) : list string :=
  match c with
  | ID => ["New Year's Day"; "Chinese New Year"; "Day of Silence/ Nyepi";
           "Ascension of the Prophet"; "Labor Day"; "Ascension of Jesus";
           "Buddha's Birthday"; "Pancasila Day"; "Eid al-Fitr";
           "Independence Day"; "Feast of the Sacrifice"; "Islamic New Year";
           "Birth of the Prophet"; "Christmas"]
  | IN => ["Republic Day"; "Independence Day"; "Gandhi Jayanti"; "Diwali";
           "Holi"; "Day of Ashura"; "Mawlid"; "Eid al-Fitr";
           "Feast of the Sacrifice"; "New Year's Day"; "Palm Sunday";
           "Maundy Thursday"; "Good Friday"; "Easter Sunday";
           "Feast of Pentecost"; "Fest of St. Theresa of Calcutta";
           "Feast of the Blessed Virgin"; "All Saints Day"; "All Souls Day";
           "Christmas Day"; "Boxing Day"; "Feast of Holy Family"]
  | KG => ["New Year's Day"; "Orthodox Christmas Day";
           "Fatherland Defender's Day"; "International Women's Day";
           "Nooruz Mairamy"; "Day of the People's April Revolution";
           "Spring and Labour Day"; "Constitution Day"; "Victory Day";
           "Russia Day"; "Independence Day";
           "Day 1 of History and Commemoration of Ancestors";
           "Day 2 of History and Commemoration of Ancestors"; "New Year's Eve"]
  | TH => ["New Year's Day"; "Magha Pujab/Makha Bucha"; "Chakri Memorial Day";
           "Songkran Festival"; "Buddha's Birthday"; "Coronation Day";
           "King Maha Vajiralongkorn's Birthday"; "Asalha Puja";
           "Beginning of Vassa"; "The Queen Sirikit's Birthday";
           "Anniversary for the Death of King Bhumibol Adulyadej";
           "King Chulalongkorn Day";
           "King Bhumibol Adulyadej's Birthday Anniversary"; "Constitution Day";
           "New Year's Eve"]
  | PH => ["New Year's Day"; "Maundy Thursday"; "Good Friday"; "Day of Valor";
           "Labor Day"; "Independence Day"; "Eid al-Fitr";
           "Feast of the Sacrifice"; "National Heroes' Day"; "Bonifacio Day";
           "Christmas Day"; "Rizal Day"]
  | PK => ["Kashmir Solidarity Day"; "Pakistan Day"; "Labor Day";
           "Independence Day"; "Iqbal Day"; "Christmas Day";
           "Feast of the Sacrifice"; "Eid al-Fitr"; "Mawlid"; "Day of Ashura";
           "Shab e Mairaj"; "Defence Day"; "Death Anniversary of Quaid-e-Azam"]
  | RU => ["New Year's Day"; "Orthodox Christmas Day"; "Christmas Day";
           "Defender of the Fatherland Day"; "International Women's Day";
           "National Flag Day"; "Spring and Labour Day"; "Victory Day";
           "Russia Day"; "Unity Day"]
  | BY => ["New Year's Day"; "Orthodox Christmas Day";
           "International Women's Day"; "Commemoration Day";
           "Spring and Labour Day"; "Victory Day"; "Independence Day";
           "October Revolution Day"; "Christmas Day"]
  | GE => ["New Year's Day"; "Second day of the New Year"; "Orthodox Christmas";
           "Baptism Day of our Lord Jesus Christ"; "Mother's Day";
           "International Women's Day"; "Good Friday"; "Great Saturday";
           "Easter Sunday"; "Easter Monday"; "National Unity Day"; "Victory Day";
           "Saint Andrew the First-Called Day"; "Independence Day";
           "Saint Mary's Day"; "Day of Svetitskhoveli Cathedral";
           "Saint George's Day"]
  end.

Lemma trace_names (E : easter_fn) (L : lunar2solar_fn) (H : islamic_conv)
  (c : country) (obs : bool) (yr : Z) (k : date) (n : string) :
  In (SetItem k n) (populate_trace E L H c obs yr) -> In n (country_names c).
Proof.
  intros He.
  assert (Hall : forall e, In e (populate_trace E L H c obs yr) ->
            match e with SetItem _ v => In v (country_names c) | Warn _ => True end).
  { intros e He'. destruct c; trace_in He'; subst e; simpl; first [exact I | in_list]. }
  exact (Hall _ He).
Qed.

Lemma trace_no_nesting (E : easter_fn) (L : lunar2solar_fn) (H : islamic_conv)
  (c : country) (obs : bool) (yr : Z) (k : date) (a b : string) :
  In (SetItem k a) (populate_trace E L H c obs yr) ->
  In (SetItem k b) (populate_trace E L H c obs yr) ->
  contains a b = true -> a = b.
Proof.
  intros Ha Hb Hab. destruct (String.eqb_spec a b) as [|Hne]; [assumption|exfalso].
  pose proof (nested_pairs_spec _ a b (trace_names E L H c obs yr k a Ha)
                (trace_names E L H c obs yr k b Hb) Hab Hne) as Hp.
  (* only Russia and Belarus store nested names: at January 7 and December 25 *)
  destruct c; vm_compute in Hp; try contradiction;
    destruct Hp as [Hp|[]]; injection Hp as <- <-;
    trace_in Ha; try discriminate Ha; injection Ha as ->;
    trace_in Hb; discriminate Hb.
Qed.

Lemma populate_records (E : easter_fn) (L : lunar2solar_fn) (H : islamic_conv)
  (c : country) (obs : bool) (yr : Z) (m : store) (k : date) (v : string) :
  (forall k v, In (SetItem k v) (populate_trace E L H c obs yr) -> m !! k = None) ->
  In (SetItem k v) (populate_trace E L H c obs yr) ->
  exists s, populate E L H c obs yr m !! k = Some s /\ contains s v = true.
Proof.
  intros Hm Hin. unfold populate.
  apply run_records; [|exact Hm|exact Hin].
  apply trace_no_nesting.
Qed.

(* ------------------------------------------------------------------ *)
(** ** The definitions the properties below range over *)

(** The multi-day Hijri holidays that test each day on its own: country,
    name, the Gregorian day whose Hijri year is looked up, the Hijri month,
    its first day and the number of days. *)
Definition MULTI_DAY_HIJRI : list (country * string * (Z * Z) * Z * Z * Z) :=
  [(IN, "Eid al-Fitr", (6, 15), 10, 1, 2);
   (PK, "Feast of the Sacrifice", (8, 22), 12, 10, 3);
   (PK, "Eid al-Fitr", (6, 15), 10, 1, 3);
   (PK, "Day of Ashura", (10, 1), 1, 10, 2)].

(** The holidays resolved by a lunar or Hijri loop, per country. *)
Definition foreign_calendar_names (c : country) : list string :=
  match c with
  | ID => ["Chinese New Year"; "Ascension of the Prophet"; "Buddha's Birthday";
           "Eid al-Fitr"; "Feast of the Sacrifice"; "Islamic New Year";
           "Birth of the Prophet"]
  | IN => ["Day of Ashura"; "Mawlid"; "Eid al-Fitr"; "Feast of the Sacrifice"]
  | TH => ["Buddha's Birthday"]
  | PH => ["Eid al-Fitr"; "Feast of the Sacrifice"]
  | PK => ["Feast of the Sacrifice"; "Eid al-Fitr"; "Mawlid"; "Day of Ashura";
           "Shab e Mairaj"]
  | KG | RU | BY | GE => []
  end.

(** The Western-Easter holidays: country, name and day offset. *)
Definition WESTERN_EASTER_OFFSETS : list (country * string * Z) :=
  [(ID, "Ascension of Jesus", 39);
   (IN, "Palm Sunday", -7); (IN, "Maundy Thursday", -3);
   (IN, "Good Friday", -2); (IN, "Easter Sunday", 0);
   (IN, "Feast of Pentecost", 49);
   (PH, "Maundy Thursday", -3); (PH, "Good Friday", -2)].

(** The warnings of one [_populate] call. *)
Definition table_warnings (c : country) : list string :=
  match c with
  | ID => ["We only support Nyepi holiday from 2009 to 2019"]
  | IN => ["We only support Diwali and Holi holidays from 2010 to 2030"]
  | TH => ["We only support Asalha Puja holiday from 2006 to 2025";
           "We only support Vassa holiday from 2006 to 2020"]
  | KG | PH | PK | RU | BY | GE => []
  end.

(** Every write of the countries but Belarus and Georgia is in the year. *)
Lemma trace_in_year (E : easter_fn) (L : lunar2solar_fn) (H : islamic_conv)
  (c : country) (obs : bool) (yr : Z) (d : date) (n : string) :
  c <> BY -> c <> GE ->
  In (SetItem d n) (populate_trace E L H c obs yr) -> year d = yr.
Proof.
  intros HBY HGE Hin.
  destruct c; try contradiction; trace_in Hin; try discriminate Hin;
    injection Hin as -> _; first [reflexivity | assumption].
Qed.


(* ------------------------------------------------------------------ *)
(** ** The store one date at a time *)

(** The names a trace writes at the date [k], in order. *)
Definition names_at (k : date) (tr : list event) : list string :=
  flat_map (fun e => match e with
                     | SetItem k' v => if decide (k' = k) then [v] else []
                     | Warn _ => []
                     end) tr.

(** What [HolidayBase.__setitem__] leaves at its key, from the value found
    there. *)
Definition merge (o : option string) (v : string) : option string :=
  match o with
  | Some c => Some (if negb (contains c v) && negb (contains v c)
                    then String.append v (String.append ", " c) else c)
  | None => Some v
  end.

Lemma setitem_lookup_merge (m : store) (k k' : date) (v : string) :
  setitem m k v !! k' = if decide (k = k') then merge (m !! k) v else m !! k'.
Proof.
  unfold setitem, merge. case_decide as Hk.
  - subst k'. destruct (m !! k); [|apply lookup_insert_eq].
    destruct (negb _ && negb _); apply lookup_insert_eq.
  - destruct (m !! k); [destruct (negb _ && negb _)|];
      apply lookup_insert_ne; exact Hk.
Qed.

Lemma run_trace_lookup (m : store) (tr : list event) (k : date) :
  run_trace m tr !! k = fold_left merge (names_at k tr) (m !! k).
Proof.
  revert m. induction tr as [|e tr IH]; intros m; [reflexivity|].
  unfold run_trace in *. simpl. rewrite IH.
  destruct e as [msg|k' v]; simpl; [reflexivity|].
  rewrite setitem_lookup_merge. case_decide; simpl; [subst; reflexivity|reflexivity].
Qed.

Lemma names_at_nil (k : date) (tr : list event) :
  (forall d v, In (SetItem d v) tr -> d <> k) -> names_at k tr = [].
Proof.
  induction tr as [|e tr IH]; intros Hd; [reflexivity|]. simpl.
  rewrite IH by (intros d v Hin; apply (Hd d v); right; exact Hin).
  destruct e as [|d v]; [reflexivity|].
  rewrite decide_False; [reflexivity|]. apply (Hd d v). left. reflexivity.
Qed.

Lemma fold_merge_some (o : option string) (l : list string) :
  fold_left merge l o = None <-> o = None /\ l = [].
Proof.
  revert o. induction l as [|v l IH]; intros o; simpl; [tauto|].
  rewrite IH. split; [intros [Ho _]; destruct o; discriminate|intros [_ ?]; discriminate].
Qed.

Lemma in_names_at (k : date) (tr : list event) (v : string) :
  In v (names_at k tr) <-> In (SetItem k v) tr.
Proof.
  unfold names_at. rewrite in_flat_map. split.
  - intros ([|k' v'] & Hin & Hv); [destruct Hv|].
    case_decide; [|destruct Hv]. destruct Hv as [<-|[]]. subst. exact Hin.
  - intros Hin. exists (SetItem k v). split; [exact Hin|].
    rewrite decide_True by reflexivity. left. reflexivity.
Qed.


(* ------------------------------------------------------------------ *)
(** ** Properties *)

(** C1 (as amended): each date that a multi-day Hijri holiday with the
    day-by-day year test (India's Eid al-Fitr; Pakistan's Eid al-Fitr,
    Feast of the Sacrifice and Ashura) records for year [yr] lies in [yr] and
    is the Gregorian conversion of one of the days [start] .. [start+cnt-1] of
    the Hijri month, in the Hijri year read off year [yr-1], [yr] or [yr+1]. *)
Theorem hijri_multi_day_dates (E : easter_fn) (L : lunar2solar_fn)
  (H : islamic_conv) (c : country) (obs : bool) (yr : Z) (n : string)
  (gm gd hm start cnt : Z) (d : date) :
  In (c, n, (gm, gd), hm, start, cnt) MULTI_DAY_HIJRI ->
  In (SetItem d n) (populate_trace E L H c obs yr) ->
  year d = yr
  /\ exists k hd, In k OFFSETS /\ start <= hd < start + cnt
     /\ to_gregorian H (fst (fst (from_gregorian H (yr + k) gm gd))) hm hd
        = (year d, month d, day d).
Proof.
  intros Hdef Hin.
  destruct Hdef as [Hd|[Hd|[Hd|[Hd|[]]]]]; injection Hd as <- <- <- <- <- <- <-;
    trace_in Hin; try discriminate Hin; injection Hin as ->;
    rewrite Z.add_0_r in Hc; (split; [exact Hy|]); exists k, hd;
    (split; [exact Hk|]); (split; [|exact Hc]);
    simpl in Hhd; intuition lia.
Qed.

Lemma hijri_multi_day_dates_witness :
  In (IN, "Eid al-Fitr", (6, 15), 10, 1, 2) MULTI_DAY_HIJRI
  /\ In (SetItem (mkdate 2019 6 5) "Eid al-Fitr")
        (populate_trace Dateutil.easter (fun y m d => mkdate y m d)
           Convertdate.islamic IN true 2019)
  /\ year (mkdate 2019 6 5) = 2019
  /\ exists k hd, In k OFFSETS /\ 1 <= hd < 1 + 2
     /\ to_gregorian Convertdate.islamic
          (fst (fst (from_gregorian Convertdate.islamic (2019 + k) 6 15))) 10 hd
        = (year (mkdate 2019 6 5), month (mkdate 2019 6 5), day (mkdate 2019 6 5)).
Proof.
  assert (Hd : In (IN, "Eid al-Fitr", (6, 15), 10, 1, 2) MULTI_DAY_HIJRI)
    by (simpl; in_list).
  assert (Hin : In (SetItem (mkdate 2019 6 5) "Eid al-Fitr")
                   (populate_trace Dateutil.easter (fun y m d => mkdate y m d)
                      Convertdate.islamic IN true 2019))
    by (vm_compute; in_list).
  split; [exact Hd|]. split; [exact Hin|].
  exact (hijri_multi_day_dates Dateutil.easter (fun y m d => mkdate y m d)
           Convertdate.islamic IN true 2019 "Eid al-Fitr" 6 15 10 1 2
           (mkdate 2019 6 5) Hd Hin).
Defined.

(** C1 (counterexample): India's Eid al-Fitr of 2000 is recorded on January 8
    and on December 28, for the two Hijri years 1420 and 1421. *)
Lemma india_eid_2000_not_consecutive :
  exists d1 d2,
    In (SetItem d1 "Eid al-Fitr") (india Dateutil.easter Convertdate.islamic 2000)
    /\ In (SetItem d2 "Eid al-Fitr") (india Dateutil.easter Convertdate.islamic 2000)
    /\ 2 <= Z.abs (toordinal d1 - toordinal d2).
Proof.
  exists (mkdate 2000 1 8), (mkdate 2000 12 28).
  split; [|split].
  - vm_compute. in_list.
  - vm_compute. in_list.
  - vm_compute. discriminate.
Qed.

(** C2: every date a lunar or Hijri resolution loop records for year [yr]
    lies in [yr]. *)
Theorem foreign_calendar_dates_in_year (E : easter_fn) (L : lunar2solar_fn)
  (H : islamic_conv) (c : country) (obs : bool) (yr : Z) (n : string) (d : date) :
  In n (foreign_calendar_names c) ->
  In (SetItem d n) (populate_trace E L H c obs yr) ->
  year d = yr.
Proof.
  intros Hn Hin. destruct c; try (destruct Hn; fail);
    refine (trace_in_year E L H _ obs yr d n _ _ Hin); discriminate.
Qed.

Lemma foreign_calendar_dates_in_year_witness :
  In "Eid al-Fitr" (foreign_calendar_names IN)
  /\ In (SetItem (mkdate 2019 6 5) "Eid al-Fitr")
        (populate_trace Dateutil.easter (fun y m d => mkdate y m d)
           Convertdate.islamic IN true 2019)
  /\ year (mkdate 2019 6 5) = 2019.
Proof.
  assert (Hn : In "Eid al-Fitr" (foreign_calendar_names IN))
    by (simpl; in_list).
  assert (Hin : In (SetItem (mkdate 2019 6 5) "Eid al-Fitr")
                   (populate_trace Dateutil.easter (fun y m d => mkdate y m d)
                      Convertdate.islamic IN true 2019))
    by (vm_compute; in_list).
  split; [exact Hn|]. split; [exact Hin|].
  exact (foreign_calendar_dates_in_year Dateutil.easter (fun y m d => mkdate y m d)
           Convertdate.islamic IN true 2019 "Eid al-Fitr" (mkdate 2019 6 5) Hn Hin).
Defined.

(** C3: a date a Western-Easter holiday with offset [o] records for year
    [yr] lies in [yr], and [o] days before it is Western Easter of [yr-1],
    [yr] or [yr+1]. *)
Theorem western_easter_offsets (E : easter_fn) (L : lunar2solar_fn)
  (H : islamic_conv) (c : country) (obs : bool) (yr : Z) (n : string) (o : Z)
  (d : date) :
  In (c, n, o) WESTERN_EASTER_OFFSETS ->
  In (SetItem d n) (populate_trace E L H c obs yr) ->
  exists k, In k OFFSETS /\ year d = yr
    /\ toordinal d - o = toordinal (E (yr + k) EASTER_WESTERN).
Proof.
  intros Hdef Hin.
  destruct Hdef as [Hd|[Hd|[Hd|[Hd|[Hd|[Hd|[Hd|[Hd|[]]]]]]]]];
    injection Hd as <- <- <-;
    trace_in Hin; try discriminate Hin; injection Hin as ->;
    exists k; (split; [exact Hk|]); (split; [exact Hy|]);
    try rewrite toordinal_add_days; lia.
Qed.

Lemma western_easter_offsets_witness :
  In (IN, "Good Friday", -2) WESTERN_EASTER_OFFSETS
  /\ In (SetItem (mkdate 2024 3 29) "Good Friday")
        (populate_trace Dateutil.easter (fun y m d => mkdate y m d)
           Convertdate.islamic IN true 2024)
  /\ exists k, In k OFFSETS /\ year (mkdate 2024 3 29) = 2024
     /\ toordinal (mkdate 2024 3 29) - -2
        = toordinal (Dateutil.easter (2024 + k) EASTER_WESTERN).
Proof.
  assert (Hd : In (IN, "Good Friday", -2) WESTERN_EASTER_OFFSETS)
    by (simpl; in_list).
  assert (Hin : In (SetItem (mkdate 2024 3 29) "Good Friday")
                   (populate_trace Dateutil.easter (fun y m d => mkdate y m d)
                      Convertdate.islamic IN true 2024))
    by (vm_compute; in_list).
  split; [exact Hd|]. split; [exact Hin|].
  exact (western_easter_offsets Dateutil.easter (fun y m d => mkdate y m d)
           Convertdate.islamic IN true 2024 "Good Friday" (-2) (mkdate 2024 3 29)
           Hd Hin).
Defined.

(** C4: on a store with no entry at the dates it writes, [_populate(yr)]
    run a second time leaves the store as the first run left it. *)
Theorem populate_idempotent (E : easter_fn) (L : lunar2solar_fn)
  (H : islamic_conv) (c : country) (obs : bool) (yr : Z) (m : store) :
  (forall k v, In (SetItem k v) (populate_trace E L H c obs yr) -> m !! k = None) ->
  populate E L H c obs yr (populate E L H c obs yr m) = populate E L H c obs yr m.
Proof.
  intros Hm. unfold populate. apply run_trace_twice; [|exact Hm].
  apply trace_no_nesting.
Qed.

Lemma populate_idempotent_witness :
  (forall k v, In (SetItem k v)
     (populate_trace Dateutil.easter (fun y m d => mkdate y m d)
        Convertdate.islamic IN true 2019) -> (∅ : store) !! k = None)
  /\ populate Dateutil.easter (fun y m d => mkdate y m d) Convertdate.islamic
       IN true 2019
       (populate Dateutil.easter (fun y m d => mkdate y m d) Convertdate.islamic
          IN true 2019 ∅)
     = populate Dateutil.easter (fun y m d => mkdate y m d) Convertdate.islamic
         IN true 2019 ∅.
Proof.
  assert (Hm : forall k v, In (SetItem k v)
     (populate_trace Dateutil.easter (fun y m d => mkdate y m d)
        Convertdate.islamic IN true 2019) -> (∅ : store) !! k = None)
    by (intros k v _; reflexivity).
  split; [exact Hm|].
  exact (populate_idempotent Dateutil.easter (fun y m d => mkdate y m d)
           Convertdate.islamic IN true 2019 ∅ Hm).
Defined.

(** C5 (as amended): every [_populate(yr)] call issues each of its
    hard-coded tables' warnings exactly once, whatever [yr]; one year past a
    table's last year records no date for its holiday. *)
Theorem table_warnings_every_call (E : easter_fn) (L : lunar2solar_fn)
  (H : islamic_conv) (obs : bool) :
  (forall c yr, warnings (populate_trace E L H c obs yr) = table_warnings c)
  /\ named "Day of Silence/ Nyepi" (populate_trace E L H ID obs 2020) = []
  /\ named "Diwali" (populate_trace E L H IN obs 2031) = []
  /\ named "Holi" (populate_trace E L H IN obs 2031) = []
  /\ named "Asalha Puja" (populate_trace E L H TH obs 2026) = []
  /\ named "Beginning of Vassa" (populate_trace E L H TH obs 2021) = [].
Proof.
  split; [intros c yr; destruct c; unfold_trace; warning_blocks; reflexivity|].
  repeat split; unfold_trace; named_blocks; vm_compute; reflexivity.
Qed.

(** C5 (counterexample): for 2015, inside Diwali's and Holi's years
    2010 .. 2030, India records Diwali and still issues the warning. *)
Lemma diwali_warning_in_range :
  named "Diwali" (india Dateutil.easter Convertdate.islamic 2015)
    = [SetItem (mkdate 2015 11 11) "Diwali"]
  /\ warnings (india Dateutil.easter Convertdate.islamic 2015)
    = ["We only support Diwali and Holi holidays from 2010 to 2030"].
Proof. split; vm_compute; reflexivity. Qed.

(** C6 (code bug): for 2019, India records Eid al-Fitr on June 5 and June 6,
    but Indonesia records June 6 twice: its first test stores
    [date(y1, m2, d2)], the second day, in place of the first. *)
Theorem eid_al_fitr_2019 (L : lunar2solar_fn) (obs : bool) :
  named "Eid al-Fitr" (india Dateutil.easter Convertdate.islamic 2019)
    = [SetItem (mkdate 2019 6 5) "Eid al-Fitr"; SetItem (mkdate 2019 6 6) "Eid al-Fitr"]
  /\ named "Eid al-Fitr" (indonesia Dateutil.easter L Convertdate.islamic obs 2019)
    = [SetItem (mkdate 2019 6 6) "Eid al-Fitr"; SetItem (mkdate 2019 6 6) "Eid al-Fitr"].
Proof.
  split; [vm_compute; reflexivity|].
  unfold indonesia. named_blocks. vm_compute. reflexivity.
Qed.

(** C7: Belarus's Commemoration Day is Orthodox Easter plus 9 days, which
    for 2024 is May 14 (Orthodox Easter May 5); Western Easter plus 9 days
    would be April 9. *)
Theorem commemoration_day_2024 (E : easter_fn) (L : lunar2solar_fn)
  (H : islamic_conv) (obs : bool) :
  named "Commemoration Day" (populate_trace E L H BY obs 2024)
    = [SetItem (add_days (E 2024 EASTER_ORTHODOX) 9) "Commemoration Day"]
  /\ Dateutil.easter 2024 EASTER_ORTHODOX = mkdate 2024 5 5
  /\ add_days (Dateutil.easter 2024 EASTER_ORTHODOX) 9 = mkdate 2024 5 14
  /\ add_days (Dateutil.easter 2024 EASTER_WESTERN) 9 = mkdate 2024 4 9.
Proof. repeat split; vm_compute; reflexivity. Qed.

(** C8: each hard-coded holiday is recorded exactly when its table has a
    row for the year, on the row's date; the tables' rows are the years
    2009 .. 2019 (Nyepi), 2010 .. 2030 (Diwali, Holi), 2016 .. 2019 (Magha
    Puja), 2006 .. 2025 (Asalha Puja) and 2006 .. 2020 (Vassa); and the
    statements after them still run: the last holiday of each country is
    recorded in every year. *)
Theorem hardcoded_tables (E : easter_fn) (L : lunar2solar_fn)
  (H : islamic_conv) (obs : bool) (yr : Z) :
  named "Day of Silence/ Nyepi" (populate_trace E L H ID obs yr)
    = hardcoded yr NYEPI "Day of Silence/ Nyepi"
  /\ named "Diwali" (populate_trace E L H IN obs yr)
    = match year_table yr DIWALI_HOLI with
      | Some ((m, d), _) => [SetItem (mkdate yr m d) "Diwali"]
      | None => []
      end
  /\ named "Holi" (populate_trace E L H IN obs yr)
    = match year_table yr DIWALI_HOLI with
      | Some (_, (m, d)) => [SetItem (mkdate yr m d) "Holi"]
      | None => []
      end
  /\ named "Magha Pujab/Makha Bucha" (populate_trace E L H TH obs yr)
    = hardcoded yr MAGHA_PUJA "Magha Pujab/Makha Bucha"
  /\ named "Asalha Puja" (populate_trace E L H TH obs yr)
    = hardcoded yr ASALHA_PUJA "Asalha Puja"
  /\ named "Beginning of Vassa" (populate_trace E L H TH obs yr)
    = hardcoded yr VASSA "Beginning of Vassa"
  /\ (year_table yr NYEPI = None <-> yr < 2009 \/ 2019 < yr)
  /\ (year_table yr DIWALI_HOLI = None <-> yr < 2010 \/ 2030 < yr)
  /\ (year_table yr MAGHA_PUJA = None <-> yr < 2016 \/ 2019 < yr)
  /\ (year_table yr ASALHA_PUJA = None <-> yr < 2006 \/ 2025 < yr)
  /\ (year_table yr VASSA = None <-> yr < 2006 \/ 2020 < yr)
  /\ In (SetItem (mkdate yr 12 25) "Christmas") (populate_trace E L H ID obs yr)
  /\ In (SetItem (mkdate yr 12 30) "Feast of Holy Family")
        (populate_trace E L H IN obs yr)
  /\ In (SetItem (mkdate yr 12 31) "New Year's Eve")
        (populate_trace E L H TH obs yr).
Proof.
  split; [unfold_trace; named_blocks; rewrite ?app_nil_l, ?app_nil_r; reflexivity|].
  split.
  { unfold_trace; named_blocks. rewrite ?app_nil_l, ?app_nil_r.
    unfold diwali_holi. destruct (year_table yr DIWALI_HOLI) as [[[? ?] [? ?]]|];
      reflexivity. }
  split.
  { unfold_trace; named_blocks. rewrite ?app_nil_l, ?app_nil_r.
    unfold diwali_holi. destruct (year_table yr DIWALI_HOLI) as [[[? ?] [? ?]]|];
      reflexivity. }
  do 3 (split; [unfold_trace; named_blocks; rewrite ?app_nil_l, ?app_nil_r;
                reflexivity|]).
  split; [rewrite (year_table_range yr 2009 11) by reflexivity;
         split; intros; lia|].
  split; [rewrite (year_table_range yr 2010 21) by reflexivity;
         split; intros; lia|].
  split; [rewrite (year_table_range yr 2016 4) by reflexivity;
         split; intros; lia|].
  split; [rewrite (year_table_range yr 2006 20) by reflexivity;
         split; intros; lia|].
  split; [rewrite (year_table_range yr 2006 15) by reflexivity;
         split; intros; lia|].
  split; [|split]; unfold_trace; repeat (apply in_or_app; right);
    left; reflexivity.
Qed.

(** C9: Indonesia writes New Year's Day exactly on January 1, and exactly
    when not ([observed] false and January 1 a Saturday or Sunday); then the
    value stored at January 1 of a fresh store contains the name (the store
    joins the names of one date); and no other write depends on [observed]. *)
Theorem indonesia_new_year (E : easter_fn) (L : lunar2solar_fn)
  (H : islamic_conv) (obs : bool) (yr : Z) :
  (forall d, In (SetItem d "New Year's Day") (populate_trace E L H ID obs yr)
     <-> d = mkdate yr 1 1
         /\ ~ (obs = false /\ (weekday (mkdate yr 1 1) = 5
                               \/ weekday (mkdate yr 1 1) = 6)))
  /\ (~ (obs = false /\ (weekday (mkdate yr 1 1) = 5
                          \/ weekday (mkdate yr 1 1) = 6)) ->
      exists s, populate E L H ID obs yr ∅ !! mkdate yr 1 1 = Some s
                /\ contains s "New Year's Day" = true)
  /\ (forall obs', unnamed "New Year's Day" (populate_trace E L H ID obs yr)
                   = unnamed "New Year's Day" (populate_trace E L H ID obs' yr)).
Proof.
  assert (Hoff : negb obs && in_weekend (weekday (mkdate yr 1 1)) = false <->
                 ~ (obs = false /\ (weekday (mkdate yr 1 1) = 5
                                    \/ weekday (mkdate yr 1 1) = 6))).
  { rewrite <- in_weekend_spec.
    destruct obs, (in_weekend (weekday (mkdate yr 1 1))); simpl; intuition congruence. }
  assert (Hiff : forall d,
            In (SetItem d "New Year's Day") (populate_trace E L H ID obs yr)
            <-> d = mkdate yr 1 1
                /\ ~ (obs = false /\ (weekday (mkdate yr 1 1) = 5
                                      \/ weekday (mkdate yr 1 1) = 6))).
  { intros d. split.
    - intros Hin.
      enough (d = mkdate yr 1 1
              /\ negb obs && in_weekend (weekday (mkdate yr 1 1)) = false)
        as [-> Hw] by (split; [reflexivity|apply Hoff, Hw]).
      clear Hoff. trace_in Hin; try discriminate Hin.
      injection Hin as ->. split; reflexivity.
    - intros [-> Hw]. apply Hoff in Hw.
      unfold_trace. apply in_or_app. left. rewrite Hw. left. reflexivity. }
  split; [exact Hiff|]. split.
  - intros Hw. apply populate_records; [intros; reflexivity|].
    apply Hiff. split; [reflexivity|exact Hw].
  - intros obs'. unfold_trace. rewrite !unnamed_app. f_equal.
    destruct (negb obs && _), (negb obs' && _); reflexivity.
Qed.

(** Thailand reads no [observed] flag. *)
Lemma thailand_observed_free (E : easter_fn) (L : lunar2solar_fn)
  (H : islamic_conv) (obs obs' : bool) (yr : Z) :
  populate_trace E L H TH obs yr = populate_trace E L H TH obs' yr.
Proof. reflexivity. Qed.

(** C10: Thailand writes Chakri Memorial Day once, on April 8 when April 6
    is a Saturday, on April 7 when it is a Sunday and on April 6 otherwise,
    whatever [observed]. *)
Theorem thailand_chakri (E : easter_fn) (L : lunar2solar_fn) (H : islamic_conv)
  (obs : bool) (yr : Z) :
  (weekday (mkdate yr 4 6) = 5 ->
     named "Chakri Memorial Day" (populate_trace E L H TH obs yr)
     = [SetItem (mkdate yr 4 8) "Chakri Memorial Day"])
  /\ (weekday (mkdate yr 4 6) = 6 ->
     named "Chakri Memorial Day" (populate_trace E L H TH obs yr)
     = [SetItem (mkdate yr 4 7) "Chakri Memorial Day"])
  /\ (weekday (mkdate yr 4 6) <> 5 -> weekday (mkdate yr 4 6) <> 6 ->
     named "Chakri Memorial Day" (populate_trace E L H TH obs yr)
     = [SetItem (mkdate yr 4 6) "Chakri Memorial Day"])
  /\ (forall obs', populate_trace E L H TH obs yr = populate_trace E L H TH obs' yr).
Proof.
  assert (Hn : named "Chakri Memorial Day" (populate_trace E L H TH obs yr)
               = chakri yr).
  { unfold_trace. named_blocks. rewrite ?app_nil_l, ?app_nil_r. reflexivity. }
  rewrite Hn. unfold chakri.
  split; [|split; [|split]].
  - intros Hw. rewrite Hw. reflexivity.
  - intros Hw. rewrite Hw. reflexivity.
  - intros Hw5 Hw6. apply Z.eqb_neq in Hw5, Hw6. rewrite Hw5, Hw6. reflexivity.
  - intros obs'. apply thailand_observed_free.
Qed.

(** [weekday] counts from Monday 0: April 6, 2024 was a Saturday. *)
Lemma weekday_2024_04_06 : weekday (mkdate 2024 4 6) = 5.
Proof. reflexivity. Qed.
(* ------------------------------------------------------------------ *)
(** ** Further properties of [_populate] *)

(** A [_populate(yr)] call of a country other than Belarus and Georgia
    leaves the value of every date outside [yr] as it was. *)
Theorem populate_other_years (E : easter_fn) (L : lunar2solar_fn)
  (H : islamic_conv) (c : country) (obs : bool) (yr : Z) (m : store) (k : date) :
  c <> BY -> c <> GE -> year k <> yr ->
  populate E L H c obs yr m !! k = m !! k.
Proof.
  intros HBY HGE Hk. unfold populate. rewrite run_trace_lookup, names_at_nil;
    [reflexivity|].
  intros d v Hin ->. apply Hk, (trace_in_year E L H c obs yr k v HBY HGE Hin).
Qed.

Lemma populate_other_years_witness :
  IN <> BY /\ IN <> GE /\ year (mkdate 2018 12 31) <> 2019
  /\ populate Dateutil.easter (fun y m d => mkdate y m d) Convertdate.islamic
       IN true 2019 (<[mkdate 2018 12 31 := "New Year's Eve"]> ∅)
       !! mkdate 2018 12 31
     = (<[mkdate 2018 12 31 := "New Year's Eve"]> (∅ : store)) !! mkdate 2018 12 31.
Proof.
  assert (H1 : IN <> BY) by discriminate.
  assert (H2 : IN <> GE) by discriminate.
  assert (H3 : year (mkdate 2018 12 31) <> 2019) by (simpl; lia).
  split; [exact H1|]. split; [exact H2|]. split; [exact H3|].
  exact (populate_other_years Dateutil.easter (fun y m d => mkdate y m d)
           Convertdate.islamic IN true 2019
           (<[mkdate 2018 12 31 := "New Year's Eve"]> ∅) (mkdate 2018 12 31)
           H1 H2 H3).
Defined.

(** After [_populate(yr)] a date has no value exactly when it had none
    before and the call writes nothing there: the call never removes a
    date, and adds exactly the dates it writes. *)
Theorem populate_domain (E : easter_fn) (L : lunar2solar_fn)
  (H : islamic_conv) (c : country) (obs : bool) (yr : Z) (m : store) (k : date) :
  populate E L H c obs yr m !! k = None
  <-> m !! k = None
      /\ (forall v, ~ In (SetItem k v) (populate_trace E L H c obs yr)).
Proof.
  unfold populate. rewrite run_trace_lookup, fold_merge_some.
  split; intros [Hm Hn]; split; try exact Hm.
  - intros v Hin. apply in_names_at in Hin. rewrite Hn in Hin. destruct Hin.
  - destruct (names_at k (populate_trace E L H c obs yr)) as [|v l] eqn:El;
      [reflexivity|].
    exfalso. apply (Hn v), in_names_at. rewrite El. left. reflexivity.
Qed.

(** On a store with no value at the dates it writes, [_populate(yr)] keeps
    every name it writes: the value at the date contains it. *)
Theorem populate_keeps_names (E : easter_fn) (L : lunar2solar_fn)
  (H : islamic_conv) (c : country) (obs : bool) (yr : Z) (m : store)
  (k : date) (v : string) :
  (forall k v, In (SetItem k v) (populate_trace E L H c obs yr) -> m !! k = None) ->
  In (SetItem k v) (populate_trace E L H c obs yr) ->
  exists s, populate E L H c obs yr m !! k = Some s /\ contains s v = true.
Proof. apply populate_records. Qed.

Lemma populate_keeps_names_witness :
  (forall k v, In (SetItem k v)
     (populate_trace Dateutil.easter (fun y m d => mkdate y m d)
        Convertdate.islamic PK true 2019) -> (∅ : store) !! k = None)
  /\ In (SetItem (mkdate 2019 8 14) "Independence Day")
       (populate_trace Dateutil.easter (fun y m d => mkdate y m d)
          Convertdate.islamic PK true 2019)
  /\ exists s, populate Dateutil.easter (fun y m d => mkdate y m d)
                 Convertdate.islamic PK true 2019 ∅ !! mkdate 2019 8 14 = Some s
               /\ contains s "Independence Day" = true.
Proof.
  assert (Hm : forall k v, In (SetItem k v)
     (populate_trace Dateutil.easter (fun y m d => mkdate y m d)
        Convertdate.islamic PK true 2019) -> (∅ : store) !! k = None)
    by (intros k v _; reflexivity).
  assert (Hin : In (SetItem (mkdate 2019 8 14) "Independence Day")
       (populate_trace Dateutil.easter (fun y m d => mkdate y m d)
          Convertdate.islamic PK true 2019)) by (vm_compute; in_list).
  split; [exact Hm|]. split; [exact Hin|].
  exact (populate_keeps_names Dateutil.easter (fun y m d => mkdate y m d)
           Convertdate.islamic PK true 2019 ∅ (mkdate 2019 8 14)
           "Independence Day" Hm Hin).
Defined.

(** Kyrgyzstan assigns Spring and Labour Day to May 1 twice; on a fresh
    store, May 1 holds the name once, in every year. *)
Theorem kyrgyzstan_may_1 (E : easter_fn) (L : lunar2solar_fn)
  (H : islamic_conv) (obs : bool) (yr : Z) :
  names_at (mkdate yr 5 1) (populate_trace E L H KG obs yr)
    = ["Spring and Labour Day"; "Spring and Labour Day"]
  /\ populate E L H KG obs yr ∅ !! mkdate yr 5 1 = Some "Spring and Labour Day".
Proof.
  assert (Hn : names_at (mkdate yr 5 1) (populate_trace E L H KG obs yr)
               = ["Spring and Labour Day"; "Spring and Labour Day"]).
  { unfold_trace. unfold names_at, fixed. cbn [flat_map app].
    repeat first [ rewrite decide_True by reflexivity
                 | rewrite decide_False by discriminate ].
    reflexivity. }
  split; [exact Hn|].
  unfold populate. rewrite run_trace_lookup, Hn. reflexivity.
Qed.


(** The Philippines' Eid al-Fitr is the day before the Gregorian date of
    Shawwal 1, for the Hijri year read off [yr-1], [yr] or [yr+1], and lies
    in [yr]. *)
Theorem philippines_eid_day_before (E : easter_fn) (L : lunar2solar_fn)
  (H : islamic_conv) (obs : bool) (yr : Z) (d : date) :
  In (SetItem d "Eid al-Fitr") (populate_trace E L H PH obs yr) ->
  year d = yr
  /\ exists k y m dd, In k OFFSETS
     /\ to_gregorian H (fst (fst (from_gregorian H (yr + k) 6 15))) 10 1 = (y, m, dd)
     /\ toordinal d + 1 = toordinal (mkdate y m dd).
Proof.
  intros Hin. trace_in Hin; try discriminate Hin. injection Hin as ->.
  split; [exact Hy|]. exists k, y, mo, dd. split; [exact Hk|]. split; [exact Hc|].
  rewrite toordinal_add_days. lia.
Qed.

Lemma philippines_eid_day_before_witness :
  In (SetItem (mkdate 2019 6 4) "Eid al-Fitr")
     (populate_trace Dateutil.easter (fun y m d => mkdate y m d)
        Convertdate.islamic PH true 2019)
  /\ year (mkdate 2019 6 4) = 2019
  /\ exists k y m dd, In k OFFSETS
     /\ to_gregorian Convertdate.islamic
          (fst (fst (from_gregorian Convertdate.islamic (2019 + k) 6 15))) 10 1
        = (y, m, dd)
     /\ toordinal (mkdate 2019 6 4) + 1 = toordinal (mkdate y m dd).
Proof.
  assert (Hin : In (SetItem (mkdate 2019 6 4) "Eid al-Fitr")
     (populate_trace Dateutil.easter (fun y m d => mkdate y m d)
        Convertdate.islamic PH true 2019)) by (vm_compute; in_list).
  split; [exact Hin|].
  exact (philippines_eid_day_before Dateutil.easter (fun y m d => mkdate y m d)
           Convertdate.islamic true 2019 (mkdate 2019 6 4) Hin).
Defined.

(** Indonesia's Eid al-Fitr dates all carry the month and day of Shawwal 2:
    each lies in [yr] and has the month and day of the Gregorian date of
    Shawwal 2 of a Hijri year read off [yr-1], [yr] or [yr+1]. *)
Theorem indonesia_eid_second_day (E : easter_fn) (L : lunar2solar_fn)
  (H : islamic_conv) (obs : bool) (yr : Z) (d : date) :
  In (SetItem d "Eid al-Fitr") (populate_trace E L H ID obs yr) ->
  year d = yr
  /\ exists k y2 m2 d2, In k OFFSETS
     /\ to_gregorian H (fst (fst (from_gregorian H (yr + k) 6 15))) 10 2 = (y2, m2, d2)
     /\ month d = m2 /\ day d = d2.
Proof.
  intros Hin. trace_in Hin; try discriminate Hin; injection Hin as ->;
    (split; [exact Hy|]); exists k, y2, m2, d2; auto.
Qed.

Lemma indonesia_eid_second_day_witness :
  In (SetItem (mkdate 2019 6 6) "Eid al-Fitr")
     (populate_trace Dateutil.easter (fun y m d => mkdate y m d)
        Convertdate.islamic ID true 2019)
  /\ year (mkdate 2019 6 6) = 2019
  /\ exists k y2 m2 d2, In k OFFSETS
     /\ to_gregorian Convertdate.islamic
          (fst (fst (from_gregorian Convertdate.islamic (2019 + k) 6 15))) 10 2
        = (y2, m2, d2)
     /\ month (mkdate 2019 6 6) = m2 /\ day (mkdate 2019 6 6) = d2.
Proof.
  assert (Hin : In (SetItem (mkdate 2019 6 6) "Eid al-Fitr")
     (populate_trace Dateutil.easter (fun y m d => mkdate y m d)
        Convertdate.islamic ID true 2019)) by (vm_compute; in_list).
  split; [exact Hin|].
  exact (indonesia_eid_second_day Dateutil.easter (fun y m d => mkdate y m d)
           Convertdate.islamic true 2019 (mkdate 2019 6 6) Hin).
Defined.

